(** * pg_plan_watch: the executor hooks of [pg_plan_watch.c]

    A shallow embedding of the four executor hooks installed by
    [_PG_init] ([explain_ExecutorStart], [explain_ExecutorRun],
    [explain_ExecutorFinish], [explain_ExecutorEnd]) and of the
    [pg_plan_watch_enabled()] gate, followed by the properties the
    specification states about them.

    Conventions.
    - A C [int] is a [Z]; the only arithmetic the module does on one
      ([nesting_level++] / [nesting_level--]) is written with its 32-bit
      wrap-around (PostgreSQL is built with -fwrapv).
    - [ereport(ERROR)] is a non-local exit: a computation is a function
      from the backend state to an outcome and the state left behind,
      and [PG_TRY / PG_FINALLY] is a combinator on such computations.
    - Everything the module calls but does not define (the previous
      hooks, the [standard_Executor*] functions, the instrumentation and
      EXPLAIN libraries) is a field of the [Engine] and [PrevHooks]
      records, so every theorem holds for every engine. *)

From stdpp Require Import base list.
From Stdlib Require Import ZArith Bool List Ascii String Lia.
From Stdlib Require Import DecimalString DecimalPos DecimalN.
From Corelib Require Import SpecFloat.
Import ListNotations.

Local Open Scope Z_scope.

(** ** Constants of the PostgreSQL headers used by the module *)

(** [ExplainFormat] of commands/explain_state.h. *)
Inductive ExplainFormat :=
| EXPLAIN_FORMAT_TEXT
| EXPLAIN_FORMAT_XML
| EXPLAIN_FORMAT_JSON
| EXPLAIN_FORMAT_YAML.

(** The severities [loglevel_options] offers; none of them is [ERROR] or
    above, so the [ereport] of the module never exits non-locally. *)
Inductive ErrLevel :=
| DEBUG5 | DEBUG4 | DEBUG3 | DEBUG2 | DEBUG1
| INFO | NOTICE | WARNING | LOG.

(** [InstrumentOption] of executor/instrument.h. *)
Definition INSTRUMENT_TIMER : Z := Z.shiftl 1 0.
Definition INSTRUMENT_BUFFERS : Z := Z.shiftl 1 1.
Definition INSTRUMENT_ROWS : Z := Z.shiftl 1 2.
Definition INSTRUMENT_WAL : Z := Z.shiftl 1 3.
Definition INSTRUMENT_ALL : Z := 2147483647.

(** executor/executor.h. *)
Definition EXEC_FLAG_EXPLAIN_ONLY : Z := 1.

(** ** 32-bit signed arithmetic *)

Definition INT_MIN : Z := - 2 ^ 31.
Definition INT_MAX : Z := 2 ^ 31 - 1.

Definition wrap_int (z : Z) : Z := (z + 2 ^ 31) mod 2 ^ 32 - 2 ^ 31.

Definition is_int (z : Z) : Prop := INT_MIN <= z <= INT_MAX.

(** ** GUC variables *)

Record GUC := {
  pg_plan_watch_log_min_duration : Z;          (* msec or -1 *)
  pg_plan_watch_log_parameter_max_length : Z;  (* bytes or -1 *)
  pg_plan_watch_log_analyze : bool;
  pg_plan_watch_log_verbose : bool;
  pg_plan_watch_log_buffers : bool;
  pg_plan_watch_log_wal : bool;
  pg_plan_watch_log_triggers : bool;
  pg_plan_watch_log_timing : bool;
  pg_plan_watch_log_settings : bool;
  pg_plan_watch_log_format : ExplainFormat;
  pg_plan_watch_log_level : ErrLevel;
  pg_plan_watch_log_nested_statements : bool
}.

(** The boot values given to [DefineCustom*Variable] in [_PG_init]. *)
Definition default_GUC : GUC := {|
  pg_plan_watch_log_min_duration := -1;
  pg_plan_watch_log_parameter_max_length := -1;
  pg_plan_watch_log_analyze := false;
  pg_plan_watch_log_verbose := false;
  pg_plan_watch_log_buffers := false;
  pg_plan_watch_log_wal := false;
  pg_plan_watch_log_triggers := false;
  pg_plan_watch_log_timing := true;
  pg_plan_watch_log_settings := false;
  pg_plan_watch_log_format := EXPLAIN_FORMAT_TEXT;
  pg_plan_watch_log_level := LOG;
  pg_plan_watch_log_nested_statements := false
|}.

(** ** Backend state *)

(** A C [double], as the IEEE 754 binary64 value it holds. *)
Definition double := spec_float.
Definition dbl_prec : Z := 53.
Definition dbl_emax : Z := 1024.

Definition MemoryContext := nat.

(** The whole-execution accumulator; [total] is in seconds. *)
Record Instrumentation := {
  total : double
}.

(** The fields of [QueryDesc] (and of its [estate]) the module or the
    EXPLAIN library reads. *)
Record QueryDesc := {
  sourceText : string;
  params : list string;
  instrument_options : Z;
  es_query_cxt : MemoryContext;
  totaltime : option Instrumentation
}.

(** One message handed to the server log by [ereport]. *)
Record LogEntry := {
  elevel : ErrLevel;
  message : string;
  hide_stmt : bool
}.

Record State := {
  nesting_level : Z;                    (* static int nesting_level *)
  queryDesc : QueryDesc;                (* the object the hook's argument points to *)
  CurrentMemoryContext : MemoryContext;
  server_log : list LogEntry            (* oldest first *)
}.

Definition set_nesting_level (n : Z) (s : State) : State :=
  {| nesting_level := n;
     queryDesc := queryDesc s;
     CurrentMemoryContext := CurrentMemoryContext s;
     server_log := server_log s |}.

Definition set_queryDesc (q : QueryDesc) (s : State) : State :=
  {| nesting_level := nesting_level s;
     queryDesc := q;
     CurrentMemoryContext := CurrentMemoryContext s;
     server_log := server_log s |}.

Definition set_CurrentMemoryContext (c : MemoryContext) (s : State) : State :=
  {| nesting_level := nesting_level s;
     queryDesc := queryDesc s;
     CurrentMemoryContext := c;
     server_log := server_log s |}.

Definition set_server_log (l : list LogEntry) (s : State) : State :=
  {| nesting_level := nesting_level s;
     queryDesc := queryDesc s;
     CurrentMemoryContext := CurrentMemoryContext s;
     server_log := l |}.

Definition set_instrument_options (o : Z) (q : QueryDesc) : QueryDesc :=
  {| sourceText := sourceText q;
     params := params q;
     instrument_options := o;
     es_query_cxt := es_query_cxt q;
     totaltime := totaltime q |}.

Definition set_totaltime (t : option Instrumentation) (q : QueryDesc) : QueryDesc :=
  {| sourceText := sourceText q;
     params := params q;
     instrument_options := instrument_options q;
     es_query_cxt := es_query_cxt q;
     totaltime := t |}.

(** ** Computations that may exit non-locally *)

Definition ErrorData := string.

(** How a call ends: it returns, it raises an error ([ereport(ERROR)],
    caught by the closest [PG_TRY]), or its behaviour is not defined by
    C (a store outside the characters of a string). *)
Inductive Res (A : Type) :=
| Ok (a : A)
| Raise (e : ErrorData)
| Undefined.
Arguments Ok {A} a.
Arguments Raise {A} e.
Arguments Undefined {A}.

(** Calls that work on values only are sequenced in [Res] itself. *)
#[global] Instance Res_ret : MRet Res := fun A (a : A) => Ok a.

#[global] Instance Res_bind : MBind Res :=
  fun A B (k : A -> Res B) (r : Res A) =>
    match r with
    | Ok a => k a
    | Raise e => Raise e
    | Undefined => Undefined
    end.

Definition Exec (A : Type) : Type := State -> Res A * State.

(** The monad of such computations, with stdpp's notations
    [x ← c; k] and [c;; k]: a computation that does not return ends the
    sequence, and the state it leaves is kept. *)
#[global] Instance Exec_ret : MRet Exec := fun A (a : A) s => (Ok a, s).

#[global] Instance Exec_bind : MBind Exec :=
  fun A B (k : A -> Exec B) (c : Exec A) s =>
    match c s with
    | (Ok a, s1) => k a s1
    | (Raise e, s1) => (Raise e, s1)
    | (Undefined, s1) => (Undefined, s1)
    end.

Definition get : Exec State := fun s => (Ok s, s).
Definition modify (f : State -> State) : Exec unit := fun s => (Ok tt, f s).

(** A call that works on values, not on the state. *)
Definition lift {A} (r : Res A) : Exec A := fun s => (r, s).

(** [PG_TRY(); { body } PG_FINALLY(); { fin } PG_END_TRY();]: [fin] runs
    whether [body] returns or raises, and an error of [body] is
    re-thrown after it. *)
Definition PG_TRY_FINALLY {A} (body : Exec A) (fin : Exec unit) : Exec A :=
  fun s =>
    match body s with
    | (Ok a, s1) =>
        match fin s1 with
        | (Ok _, s2) => (Ok a, s2)
        | (Raise e, s2) => (Raise e, s2)
        | (Undefined, s2) => (Undefined, s2)
        end
    | (Raise e, s1) =>
        match fin s1 with
        | (Ok _, s2) => (Raise e, s2)
        | (Raise e', s2) => (Raise e', s2)
        | (Undefined, s2) => (Undefined, s2)
        end
    | (Undefined, s1) => (Undefined, s1)
    end.

(** [ereport(level, (errmsg(...), errhidestmt(hide)))] at a level below
    [ERROR]. *)
Definition ereport (level : ErrLevel) (msg : string) (hide : bool) : Exec unit :=
  modify (fun s =>
    set_server_log
      (server_log s ++ [{| elevel := level; message := msg; hide_stmt := hide |}]) s).

Definition MemoryContextSwitchTo (c : MemoryContext) : Exec MemoryContext :=
  fun s => (Ok (CurrentMemoryContext s), set_CurrentMemoryContext c s).

(** ** The strings of the report *)

Definition LF : ascii := ascii_of_nat 10.

(** A [StringInfo]: the [len] characters of [data]; the terminating
    NUL that follows them is implicit. *)
Abbreviation StringInfo := (list ascii) (only parsing).

Definition len (s : StringInfo) : Z := Z.of_nat (List.length s).

(** [data[i]], read. *)
Definition char_at (s : StringInfo) (i : Z) : option ascii :=
  if (0 <=? i) && (i <? len s) then s !! Z.to_nat i else None.

(** [data[i] = c] without a change of [len]. A store at [len]
    overwrites the terminator and one below 0 or above [len] is outside
    the string: the text is then no longer defined. *)
Definition store_char (s : StringInfo) (i : Z) (c : ascii) : Res StringInfo :=
  if (0 <=? i) && (i <? len s) then Ok (<[Z.to_nat i := c]> s) else Undefined.

(** Lines 383-385:
    [if (len > 0 && data[len - 1] == '\n') data[--len] = '\0';] *)
Definition remove_last_line_break (s : StringInfo) : StringInfo :=
  if (0 <? len s) &&
     (match char_at s (len s - 1) with
      | Some c => Ascii.eqb c LF
      | None => false
      end)
  then take (Z.to_nat (len s - 1)) s
  else s.

(** Lines 390-391: [data[0] = '{'; data[len - 1] = '}';] *)
Definition fix_json (s : StringInfo) : Res StringInfo :=
  s1 ← store_char s 0 "{"%char;
  store_char s1 (len s1 - 1) "}"%char.

(** *** [%.3f] *)

(** 1000.0 *)
Definition dbl_1000 : double :=
  Eval cbv in binary_normalize dbl_prec dbl_emax 1000 0 false.

Definition dbl_mul (x y : double) : double := SFmul dbl_prec dbl_emax x y.

(** The integer nearest to [n / d], ties to even ([0 < d]). *)
Definition div_nearest_even (n d : Z) : Z :=
  let q := n / d in
  match Z.compare (2 * (n mod d)) d with
  | Lt => q
  | Gt => q + 1
  | Eq => if Z.even q then q else q + 1
  end.

(** The number of thousandths nearest to [m * 2^e]. *)
Definition thousandths (m : positive) (e : Z) : Z :=
  if 0 <=? e then Z.pos m * 2 ^ e * 1000
  else div_nearest_even (Z.pos m * 1000) (2 ^ (- e)).

Definition digit_char (d : Z) : ascii := ascii_of_nat (48 + Z.to_nat d).

Definition decimal_of_Z (n : Z) : string :=
  NilZero.string_of_uint (N.to_uint (Z.to_N n)).

(** [n] thousandths, written with three digits after the point. *)
Definition fixed3 (n : Z) : string :=
  String.append (decimal_of_Z (n / 1000))
    (String "."%char
      (String (digit_char (n / 100 mod 10))
        (String (digit_char (n / 10 mod 10))
          (String (digit_char (n mod 10)) EmptyString)))).

Definition sign_string (s : bool) : string :=
  if s then "-"%string else EmptyString.

(** What [%.3f] writes for a [double] in an [errmsg]: the exact value
    rounded to the nearest thousandth (ties to even), and the words
    src/port/snprintf.c puts for the values that are not numbers. *)
Definition printf_f3 (x : double) : string :=
  match x with
  | S754_nan => "NaN"%string
  | S754_infinity s => String.append (sign_string s) "Infinity"%string
  | S754_zero s => String.append (sign_string s) (fixed3 0)
  | S754_finite s m e => String.append (sign_string s) (fixed3 (thousandths m e))
  end.

(** [errmsg("duration: %.3f ms  plan:\n%s", msec, data)] *)
Definition errmsg_duration_plan (msec : double) (data : StringInfo) : string :=
  String.append "duration: "%string
    (String.append (printf_f3 msec)
      (String.append " ms  plan:"%string
        (String LF (string_of_list_ascii data)))).

(** ** The EXPLAIN state *)

Record ExplainState := {
  str : StringInfo;            (* output buffer *)
  indent : Z;                  (* current indentation level *)
  grouping_stack : list Z;     (* format-specific grouping state *)
  verbose : bool;
  analyze : bool;
  costs : bool;
  buffers : bool;
  wal : bool;
  timing : bool;
  summary : bool;
  settings : bool;
  format : ExplainFormat
}.

(** [NewExplainState()]: zeroed but for [costs] and the empty buffer. *)
Definition NewExplainState : ExplainState := {|
  str := [];
  indent := 0;
  grouping_stack := [];
  verbose := false;
  analyze := false;
  costs := true;
  buffers := false;
  wal := false;
  timing := false;
  summary := false;
  settings := false;
  format := EXPLAIN_FORMAT_TEXT
|}.

(** The fields of an [ExplainState] the EXPLAIN library writes: the
    option fields are set by the caller and only read by the library. *)
Record ExplainOutput := {
  out_str : StringInfo;
  out_indent : Z;
  out_grouping_stack : list Z
}.

Definition with_output (es : ExplainState) (o : ExplainOutput) : ExplainState :=
  {| str := out_str o;
     indent := out_indent o;
     grouping_stack := out_grouping_stack o;
     verbose := verbose es;
     analyze := analyze es;
     costs := costs es;
     buffers := buffers es;
     wal := wal es;
     timing := timing es;
     summary := summary es;
     settings := settings es;
     format := format es |}.


(** ** The engine and the hook chain *)

Inductive ScanDirection :=
| BackwardScanDirection
| NoMovementScanDirection
| ForwardScanDirection.

(** What the module calls in the server. *)
Record Engine := {
  standard_ExecutorStart : Z -> Exec bool;
  standard_ExecutorRun : ScanDirection -> Z -> Exec unit;
  standard_ExecutorFinish : Exec unit;
  standard_ExecutorEnd : Exec unit;
  InstrAlloc : Z -> Z -> bool -> Exec Instrumentation;
  InstrEndLoop : Instrumentation -> Res Instrumentation;
  ExplainBeginOutput : ExplainState -> Res ExplainOutput;
  ExplainQueryText : ExplainState -> QueryDesc -> Res ExplainOutput;
  ExplainQueryParameters : ExplainState -> list string -> Z -> Res ExplainOutput;
  ExplainPrintPlan : ExplainState -> QueryDesc -> Res ExplainOutput;
  ExplainPrintTriggers : ExplainState -> QueryDesc -> Res ExplainOutput;
  ExplainPrintJITSummary : ExplainState -> QueryDesc -> Res ExplainOutput;
  ExplainEndOutput : ExplainState -> Res ExplainOutput
}.

(** The saved hook values; [None] is [NULL]. *)
Record PrevHooks := {
  prev_ExecutorStart : option (Z -> Exec bool);
  prev_ExecutorRun : option (ScanDirection -> Z -> Exec unit);
  prev_ExecutorFinish : option (Exec unit);
  prev_ExecutorEnd : option (Exec unit)
}.

(** ** The hooks *)

(** [pg_plan_watch_enabled()], as a function of the GUC variables and of
    the value of [nesting_level] it reads. *)
Definition pg_plan_watch_enabled (guc : GUC) (level : Z) : bool :=
  (0 <=? pg_plan_watch_log_min_duration guc) &&
  ((level =? 0) || pg_plan_watch_log_nested_statements guc).

(** [queryDesc->instrument_options |= bit] *)
Definition or_instrument_options (bit : Z) : Exec unit :=
  modify (fun s =>
    let q := queryDesc s in
    set_queryDesc (set_instrument_options (Z.lor (instrument_options q) bit) q) s).

(** [nesting_level++] and [nesting_level--] *)
Definition incr_nesting_level : Exec unit :=
  modify (fun s => set_nesting_level (wrap_int (nesting_level s + 1)) s).

Definition decr_nesting_level : Exec unit :=
  modify (fun s => set_nesting_level (wrap_int (nesting_level s - 1)) s).

Section Hooks.

Variable eng : Engine.
Variable prev : PrevHooks.
Variable guc : GUC.

(** *** ExecutorStart hook: start up logging if needed *)

(** Lines 248-262. *)
Definition request_instrumentation (eflags : Z) : Exec unit :=
  s ← get;
  if pg_plan_watch_enabled guc (nesting_level s) then
    (* Enable per-node instrumentation iff log_analyze is required. *)
    if pg_plan_watch_log_analyze guc &&
       (Z.land eflags EXEC_FLAG_EXPLAIN_ONLY =? 0)
    then
      (if pg_plan_watch_log_timing guc
       then or_instrument_options INSTRUMENT_TIMER
       else or_instrument_options INSTRUMENT_ROWS);;
      (if pg_plan_watch_log_buffers guc
       then or_instrument_options INSTRUMENT_BUFFERS
       else mret tt);;
      (if pg_plan_watch_log_wal guc
       then or_instrument_options INSTRUMENT_WAL
       else mret tt)
    else mret tt
  else mret tt.

(** Lines 264-267. *)
Definition call_prev_ExecutorStart (eflags : Z) : Exec bool :=
  match prev_ExecutorStart prev with
  | Some hook => hook eflags
  | None => standard_ExecutorStart eng eflags
  end.

(** Lines 273-288. *)
Definition track_total_time : Exec unit :=
  s ← get;
  if pg_plan_watch_enabled guc (nesting_level s) then
    match totaltime (queryDesc s) with
    | None =>
        oldcxt ← MemoryContextSwitchTo (es_query_cxt (queryDesc s));
        t ← InstrAlloc eng 1 INSTRUMENT_ALL false;
        modify (fun s1 => set_queryDesc (set_totaltime (Some t) (queryDesc s1)) s1);;
        MemoryContextSwitchTo oldcxt;;
        mret tt
    | Some _ => mret tt
    end
  else mret tt.

Definition explain_ExecutorStart (eflags : Z) : Exec bool :=
  request_instrumentation eflags;;
  plan_valid ← call_prev_ExecutorStart eflags;
  (* The plan may have become invalid during standard_ExecutorStart() *)
  if negb plan_valid then mret false
  else
    track_total_time;;
    mret true.

(** *** ExecutorRun hook: all we need do is track nesting depth *)

Definition call_prev_ExecutorRun (direction : ScanDirection) (count : Z)
  : Exec unit :=
  match prev_ExecutorRun prev with
  | Some hook => hook direction count
  | None => standard_ExecutorRun eng direction count
  end.

Definition explain_ExecutorRun (direction : ScanDirection) (count : Z)
  : Exec unit :=
  incr_nesting_level;;
  PG_TRY_FINALLY (call_prev_ExecutorRun direction count) decr_nesting_level.

(** *** ExecutorFinish hook: all we need do is track nesting depth *)

Definition call_prev_ExecutorFinish : Exec unit :=
  match prev_ExecutorFinish prev with
  | Some hook => hook
  | None => standard_ExecutorFinish eng
  end.

Definition explain_ExecutorFinish : Exec unit :=
  incr_nesting_level;;
  PG_TRY_FINALLY call_prev_ExecutorFinish decr_nesting_level.

(** *** ExecutorEnd hook: log results if needed *)

(** A call of the EXPLAIN library on [es]. *)
Definition explain_call (r : Res ExplainOutput) (es : ExplainState)
  : Res ExplainState :=
  o ← r;
  mret (with_output es o).

(** Lines 360-371: the options of the [ExplainState]. *)
Definition explain_options (q : QueryDesc) : ExplainState :=
  let es := NewExplainState in
  let es_analyze :=
    negb (instrument_options q =? 0) && pg_plan_watch_log_analyze guc in
  {| str := str es;
     indent := indent es;
     grouping_stack := grouping_stack es;
     verbose := pg_plan_watch_log_verbose guc;
     analyze := es_analyze;
     costs := costs es;
     buffers := es_analyze && pg_plan_watch_log_buffers guc;
     wal := es_analyze && pg_plan_watch_log_wal guc;
     timing := es_analyze && pg_plan_watch_log_timing guc;
     summary := es_analyze;
     settings := pg_plan_watch_log_settings guc;
     format := pg_plan_watch_log_format guc |}.

(** Lines 373-381: the calls that fill [es->str]. *)
Definition explain_render (q : QueryDesc) (es : ExplainState)
  : Res ExplainState :=
  es ← explain_call (ExplainBeginOutput eng es) es;
  es ← explain_call (ExplainQueryText eng es q) es;
  es ← explain_call
          (ExplainQueryParameters eng es (params q)
             (pg_plan_watch_log_parameter_max_length guc)) es;
  es ← explain_call (ExplainPrintPlan eng es q) es;
  es ← (if analyze es && pg_plan_watch_log_triggers guc
         then explain_call (ExplainPrintTriggers eng es q) es
         else mret es);
  es ← (if costs es
         then explain_call (ExplainPrintJITSummary eng es q) es
         else mret es);
  explain_call (ExplainEndOutput eng es) es.

(** Lines 383-392: the corrections made to the rendered text. *)
Definition explain_postprocess (data : StringInfo) : Res StringInfo :=
  (* Remove last line break *)
  let data := remove_last_line_break data in
  (* Fix JSON to output an object *)
  match pg_plan_watch_log_format guc with
  | EXPLAIN_FORMAT_JSON => fix_json data
  | _ => Ok data
  end.

(** Lines 342-407: the body of the [if]. *)
Definition explain_report : Exec unit :=
  s ← get;
  match totaltime (queryDesc s) with
  | Some t =>
      if pg_plan_watch_enabled guc (nesting_level s) then
        (* Make sure we operate in the per-query context *)
        oldcxt ← MemoryContextSwitchTo (es_query_cxt (queryDesc s));
        (* Make sure stats accumulation is done. *)
        t ← lift (InstrEndLoop eng t);
        modify (fun s1 => set_queryDesc (set_totaltime (Some t) (queryDesc s1)) s1);;
        (* if (true) *)
        s1 ← get;
        es ← lift (explain_render (queryDesc s1) (explain_options (queryDesc s1)));
        data ← lift (explain_postprocess (str es));
        ereport (pg_plan_watch_log_level guc)
          (errmsg_duration_plan (dbl_mul (total t) dbl_1000) data) true;;
        MemoryContextSwitchTo oldcxt;;
        mret tt
      else mret tt
  | None => mret tt
  end.

(** Lines 409-412. *)
Definition call_prev_ExecutorEnd : Exec unit :=
  match prev_ExecutorEnd prev with
  | Some hook => hook
  | None => standard_ExecutorEnd eng
  end.

Definition explain_ExecutorEnd : Exec unit :=
  explain_report;;
  call_prev_ExecutorEnd.

End Hooks.

(** ** The reading of the specification used for comparison *)

(** The end-phase wrapper as section 4.4 words its failure semantics:
    the report is bracketed, so that the previous handler runs whether
    the report returns or raises, and the failure is re-thrown after
    it. The source is [explain_ExecutorEnd] above. *)
Definition explain_ExecutorEnd_bracketed
    (eng : Engine) (prev : PrevHooks) (guc : GUC) : Exec unit :=
  PG_TRY_FINALLY (explain_report eng guc) (call_prev_ExecutorEnd eng prev).

(** [guc] with the three sub-flags replaced. *)
Definition with_sub_flags (b w t : bool) (guc : GUC) : GUC := {|
  pg_plan_watch_log_min_duration := pg_plan_watch_log_min_duration guc;
  pg_plan_watch_log_parameter_max_length := pg_plan_watch_log_parameter_max_length guc;
  pg_plan_watch_log_analyze := pg_plan_watch_log_analyze guc;
  pg_plan_watch_log_verbose := pg_plan_watch_log_verbose guc;
  pg_plan_watch_log_buffers := b;
  pg_plan_watch_log_wal := w;
  pg_plan_watch_log_triggers := t;
  pg_plan_watch_log_timing := pg_plan_watch_log_timing guc;
  pg_plan_watch_log_settings := pg_plan_watch_log_settings guc;
  pg_plan_watch_log_format := pg_plan_watch_log_format guc;
  pg_plan_watch_log_level := pg_plan_watch_log_level guc;
  pg_plan_watch_log_nested_statements := pg_plan_watch_log_nested_statements guc
|}.

Definition with_min_duration (d : Z) (guc : GUC) : GUC := {|
  pg_plan_watch_log_min_duration := d;
  pg_plan_watch_log_parameter_max_length := pg_plan_watch_log_parameter_max_length guc;
  pg_plan_watch_log_analyze := pg_plan_watch_log_analyze guc;
  pg_plan_watch_log_verbose := pg_plan_watch_log_verbose guc;
  pg_plan_watch_log_buffers := pg_plan_watch_log_buffers guc;
  pg_plan_watch_log_wal := pg_plan_watch_log_wal guc;
  pg_plan_watch_log_triggers := pg_plan_watch_log_triggers guc;
  pg_plan_watch_log_timing := pg_plan_watch_log_timing guc;
  pg_plan_watch_log_settings := pg_plan_watch_log_settings guc;
  pg_plan_watch_log_format := pg_plan_watch_log_format guc;
  pg_plan_watch_log_level := pg_plan_watch_log_level guc;
  pg_plan_watch_log_nested_statements := pg_plan_watch_log_nested_statements guc
|}.

Definition with_format (f : ExplainFormat) (guc : GUC) : GUC := {|
  pg_plan_watch_log_min_duration := pg_plan_watch_log_min_duration guc;
  pg_plan_watch_log_parameter_max_length := pg_plan_watch_log_parameter_max_length guc;
  pg_plan_watch_log_analyze := pg_plan_watch_log_analyze guc;
  pg_plan_watch_log_verbose := pg_plan_watch_log_verbose guc;
  pg_plan_watch_log_buffers := pg_plan_watch_log_buffers guc;
  pg_plan_watch_log_wal := pg_plan_watch_log_wal guc;
  pg_plan_watch_log_triggers := pg_plan_watch_log_triggers guc;
  pg_plan_watch_log_timing := pg_plan_watch_log_timing guc;
  pg_plan_watch_log_settings := pg_plan_watch_log_settings guc;
  pg_plan_watch_log_format := f;
  pg_plan_watch_log_level := pg_plan_watch_log_level guc;
  pg_plan_watch_log_nested_statements := pg_plan_watch_log_nested_statements guc
|}.

Definition with_analyze (a : bool) (guc : GUC) : GUC := {|
  pg_plan_watch_log_min_duration := pg_plan_watch_log_min_duration guc;
  pg_plan_watch_log_parameter_max_length := pg_plan_watch_log_parameter_max_length guc;
  pg_plan_watch_log_analyze := a;
  pg_plan_watch_log_verbose := pg_plan_watch_log_verbose guc;
  pg_plan_watch_log_buffers := pg_plan_watch_log_buffers guc;
  pg_plan_watch_log_wal := pg_plan_watch_log_wal guc;
  pg_plan_watch_log_triggers := pg_plan_watch_log_triggers guc;
  pg_plan_watch_log_timing := pg_plan_watch_log_timing guc;
  pg_plan_watch_log_settings := pg_plan_watch_log_settings guc;
  pg_plan_watch_log_format := pg_plan_watch_log_format guc;
  pg_plan_watch_log_level := pg_plan_watch_log_level guc;
  pg_plan_watch_log_nested_statements := pg_plan_watch_log_nested_statements guc
|}.

(** Properties of values used in the statements. *)





(** Every bit of [old] is a bit of [new]. *)
Definition adds_bits (old new : Z) : Prop :=
  forall i, Z.testbit old i = true -> Z.testbit new i = true.

(** [s1] is [s] but for bits added to [instrument_options]. *)
Definition only_adds_options (s s1 : State) : Prop :=
  exists o,
    adds_bits (instrument_options (queryDesc s)) o /\
    s1 = set_queryDesc (set_instrument_options o (queryDesc s)) s.

(** A handler that gives [nesting_level] back as it found it, as every
    code outside this file does: the variable is [static]. *)
Definition keeps_nesting_level {A} (h : Exec A) : Prop :=
  forall s, is_int (nesting_level s) ->
            nesting_level (snd (h s)) = nesting_level s.

(** A handler that returns or raises. *)
Definition returns_or_raises {A} (h : Exec A) : Prop :=
  forall s, fst (h s) <> Undefined.

(** The log entry of a report: the accumulator [t] as [InstrEndLoop]
    left it and the text [data] as the corrections left it. *)
Definition report_entry (guc : GUC) (t : Instrumentation) (data : StringInfo)
  : LogEntry :=
  {| elevel := pg_plan_watch_log_level guc;
     message := errmsg_duration_plan (dbl_mul (total t) dbl_1000) data;
     hide_stmt := true |}.


(** ** A small engine to run the hooks on *)

Module Demo.

Definition dbl_of_Z (z : Z) : double :=
  binary_normalize dbl_prec dbl_emax z 0 false.

(** 0.000123 s, that is 0.123 ms. *)
Definition seconds_000123 : double :=
  SFdiv dbl_prec dbl_emax (dbl_of_Z 123) (dbl_of_Z 1000000).

Definition append_output (es : ExplainState) (text : string) : ExplainOutput :=
  {| out_str := str es ++ list_ascii_of_string text;
     out_indent := indent es;
     out_grouping_stack := grouping_stack es |}.

Definition line (text : string) : string := String.append text (String LF EmptyString).

(** An engine whose executor does nothing and whose EXPLAIN library
    writes two lines in text format and a bracketed array in JSON. *)
Definition engine : Engine := {|
  standard_ExecutorStart := fun _ => mret true;
  standard_ExecutorRun := fun _ _ => mret tt;
  standard_ExecutorFinish := mret tt;
  standard_ExecutorEnd := mret tt;
  InstrAlloc := fun _ _ _ => mret {| total := S754_zero false |};
  InstrEndLoop := fun t => Ok t;
  ExplainBeginOutput := fun es =>
    Ok (append_output es
          match format es with
          | EXPLAIN_FORMAT_JSON => "["%string
          | _ => EmptyString
          end);
  ExplainQueryText := fun es q =>
    Ok (append_output es (line (String.append "Query Text: " (sourceText q))));
  ExplainQueryParameters := fun es _ _ => Ok (append_output es EmptyString);
  ExplainPrintPlan := fun es _ =>
    Ok (append_output es (line "Result  (cost=0.00..0.01 rows=1 width=4)"));
  ExplainPrintTriggers := fun es _ => Ok (append_output es EmptyString);
  ExplainPrintJITSummary := fun es _ => Ok (append_output es EmptyString);
  ExplainEndOutput := fun es =>
    Ok (append_output es
          match format es with
          | EXPLAIN_FORMAT_JSON => "]"%string
          | _ => EmptyString
          end)
|}.

(** The same engine with a plan printer that raises. *)
Definition failing_engine : Engine := {|
  standard_ExecutorStart := standard_ExecutorStart engine;
  standard_ExecutorRun := standard_ExecutorRun engine;
  standard_ExecutorFinish := standard_ExecutorFinish engine;
  standard_ExecutorEnd := standard_ExecutorEnd engine;
  InstrAlloc := InstrAlloc engine;
  InstrEndLoop := InstrEndLoop engine;
  ExplainBeginOutput := ExplainBeginOutput engine;
  ExplainQueryText := ExplainQueryText engine;
  ExplainQueryParameters := ExplainQueryParameters engine;
  ExplainPrintPlan := fun _ _ => Raise "unrecognized node type: 0"%string;
  ExplainPrintTriggers := ExplainPrintTriggers engine;
  ExplainPrintJITSummary := ExplainPrintJITSummary engine;
  ExplainEndOutput := ExplainEndOutput engine
|}.

Definition no_hooks : PrevHooks := {|
  prev_ExecutorStart := None;
  prev_ExecutorRun := None;
  prev_ExecutorFinish := None;
  prev_ExecutorEnd := None
|}.

(** Another observer installed before this module: its handlers leave
    a line in the log, and its run and finish handlers raise. *)
Definition observer : PrevHooks := {|
  prev_ExecutorStart := Some (fun _ => ereport LOG "observer: start"%string false;; mret true);
  prev_ExecutorRun := Some (fun _ _ =>
    ereport LOG "observer: run"%string false;;
    lift (Raise "canceling statement due to user request"%string));
  prev_ExecutorFinish := Some (
    ereport LOG "observer: finish"%string false;;
    lift (Raise "canceling statement due to user request"%string));
  prev_ExecutorEnd := Some (ereport LOG "observer: end"%string false)
|}.

(** An observer whose run handler executes a nested statement through
    the hook of this module before it raises. *)
Definition nesting_observer : PrevHooks := {|
  prev_ExecutorStart := None;
  prev_ExecutorRun := Some (fun d c =>
    explain_ExecutorRun engine no_hooks d c;;
    lift (Raise "division by zero"%string));
  prev_ExecutorFinish := Some (
    explain_ExecutorFinish engine no_hooks;;
    lift (Raise "division by zero"%string));
  prev_ExecutorEnd := None
|}.

Definition select_1 : QueryDesc := {|
  sourceText := "SELECT 1";
  params := [];
  instrument_options := 0;
  es_query_cxt := 7%nat;
  totaltime := None
|}.

(** [select_1] after a run of 0.123 ms. *)
Definition select_1_done : QueryDesc :=
  set_totaltime (Some {| total := seconds_000123 |}) select_1.

Definition backend (level : Z) (q : QueryDesc) : State := {|
  nesting_level := level;
  queryDesc := q;
  CurrentMemoryContext := 1%nat;
  server_log := []
|}.

(** Watching on, every plan, top-level statements only. *)
Definition watch_all : GUC := with_min_duration 0 default_GUC.

(** Watching on for the statements that take a second or more. *)
Definition watch_slow : GUC := with_min_duration 1000 default_GUC.

End Demo.

(** ** Module load *)

(** [struct config_enum_entry] of utils/guc.h; the [{NULL, 0, false}]
    entry that ends a table in C is the end of the list. *)
Record config_enum_entry (V : Type) := {
  name : string;
  val : V;
  hidden : bool
}.
Arguments name {V} _.
Arguments val {V} _.
Arguments hidden {V} _.

Definition format_options : list (config_enum_entry ExplainFormat) := [
  {| name := "text"; val := EXPLAIN_FORMAT_TEXT; hidden := false |};
  {| name := "xml"; val := EXPLAIN_FORMAT_XML; hidden := false |};
  {| name := "json"; val := EXPLAIN_FORMAT_JSON; hidden := false |};
  {| name := "yaml"; val := EXPLAIN_FORMAT_YAML; hidden := false |}
].

Definition loglevel_options : list (config_enum_entry ErrLevel) := [
  {| name := "debug5"; val := DEBUG5; hidden := false |};
  {| name := "debug4"; val := DEBUG4; hidden := false |};
  {| name := "debug3"; val := DEBUG3; hidden := false |};
  {| name := "debug2"; val := DEBUG2; hidden := false |};
  {| name := "debug1"; val := DEBUG1; hidden := false |};
  {| name := "debug"; val := DEBUG2; hidden := true |};
  {| name := "info"; val := INFO; hidden := false |};
  {| name := "notice"; val := NOTICE; hidden := false |};
  {| name := "warning"; val := WARNING; hidden := false |};
  {| name := "log"; val := LOG; hidden := false |}
].

Inductive GucUnit := GUC_UNIT_MS | GUC_UNIT_BYTE.

(** One call of [DefineCustom*Variable]; every variable of the module
    is [PGC_SUSET] and has no check, assign or show hook. [flags] is
    [None] where the source passes 0. *)
Inductive CustomVariable :=
| CustomIntVariable (varname short_desc : string) (long_desc : option string)
    (bootValue minValue maxValue : Z) (flags : option GucUnit)
| CustomBoolVariable (varname short_desc : string) (long_desc : option string)
    (bootValue : bool)
| CustomFormatVariable (varname short_desc : string) (long_desc : option string)
    (bootValue : ExplainFormat) (options : list (config_enum_entry ExplainFormat))
| CustomLevelVariable (varname short_desc : string) (long_desc : option string)
    (bootValue : ErrLevel) (options : list (config_enum_entry ErrLevel)).

(** Lines 91-225, in the order of the calls. *)
Definition pg_plan_watch_variables : list CustomVariable := [
  CustomIntVariable "pg_plan_watch.log_min_duration"
    "Sets the minimum execution time above which plans will be logged."
    (Some "-1 disables logging plans. 0 means log all plans."%string)
    (-1) (-1) INT_MAX (Some GUC_UNIT_MS);
  CustomIntVariable "pg_plan_watch.log_parameter_max_length"
    "Sets the maximum length of query parameter values to log."
    (Some "-1 means log values in full."%string)
    (-1) (-1) INT_MAX (Some GUC_UNIT_BYTE);
  CustomBoolVariable "pg_plan_watch.log_analyze"
    "Use EXPLAIN ANALYZE for plan logging." None false;
  CustomBoolVariable "pg_plan_watch.log_settings"
    "Log modified configuration parameters affecting query planning." None false;
  CustomBoolVariable "pg_plan_watch.log_verbose"
    "Use EXPLAIN VERBOSE for plan logging." None false;
  CustomBoolVariable "pg_plan_watch.log_buffers"
    "Log buffers usage." None false;
  CustomBoolVariable "pg_plan_watch.log_wal"
    "Log WAL usage." None false;
  CustomBoolVariable "pg_plan_watch.log_triggers"
    "Include trigger statistics in plans."
    (Some "This has no effect unless log_analyze is also set."%string) false;
  CustomFormatVariable "pg_plan_watch.log_format"
    "EXPLAIN format to be used for plan logging." None
    EXPLAIN_FORMAT_TEXT format_options;
  CustomLevelVariable "pg_plan_watch.log_level"
    "Log level for the plan." None LOG loglevel_options;
  CustomBoolVariable "pg_plan_watch.log_nested_statements"
    "Log nested statements." None false;
  CustomBoolVariable "pg_plan_watch.log_timing"
    "Collect timing data, not just row counts." None true
].

(** What [_PG_init] changes in the server: the custom variables, the
    reserved prefixes and the four executor hook variables. *)
Record Server := {
  custom_variables : list CustomVariable;
  reserved_prefixes : list string;
  ExecutorStart_hook : option (Z -> Exec bool);
  ExecutorRun_hook : option (ScanDirection -> Z -> Exec unit);
  ExecutorFinish_hook : option (Exec unit);
  ExecutorEnd_hook : option (Exec unit)
}.

(** Lines 230-237, the saved hook values. *)
Definition saved_hooks (srv : Server) : PrevHooks := {|
  prev_ExecutorStart := ExecutorStart_hook srv;
  prev_ExecutorRun := ExecutorRun_hook srv;
  prev_ExecutorFinish := ExecutorFinish_hook srv;
  prev_ExecutorEnd := ExecutorEnd_hook srv
|}.

(** Module load callback. The hooks read the GUC variables when they
    are called: the server after the load is given for the values [guc]
    the variables have at that time. *)
Definition _PG_init (eng : Engine) (srv : Server) (guc : GUC) : Server :=
  let prev := saved_hooks srv in
  {| (* Define custom GUC variables. *)
     custom_variables := custom_variables srv ++ pg_plan_watch_variables;
     reserved_prefixes := reserved_prefixes srv ++ ["pg_plan_watch"%string];
     (* Install hooks. *)
     ExecutorStart_hook := Some (explain_ExecutorStart eng prev guc);
     ExecutorRun_hook := Some (explain_ExecutorRun eng prev);
     ExecutorFinish_hook := Some (explain_ExecutorFinish eng prev);
     ExecutorEnd_hook := Some (explain_ExecutorEnd eng prev guc) |}.

(** The entry points of the executor (executor/execMain.c): the hook
    when the variable is set, the standard function otherwise. *)
Definition ExecutorStart (eng : Engine) (srv : Server) (eflags : Z) : Exec bool :=
  match ExecutorStart_hook srv with
  | Some hook => hook eflags
  | None => standard_ExecutorStart eng eflags
  end.

Definition ExecutorRun (eng : Engine) (srv : Server)
    (direction : ScanDirection) (count : Z) : Exec unit :=
  match ExecutorRun_hook srv with
  | Some hook => hook direction count
  | None => standard_ExecutorRun eng direction count
  end.

Definition ExecutorFinish (eng : Engine) (srv : Server) : Exec unit :=
  match ExecutorFinish_hook srv with
  | Some hook => hook
  | None => standard_ExecutorFinish eng
  end.

Definition ExecutorEnd (eng : Engine) (srv : Server) : Exec unit :=
  match ExecutorEnd_hook srv with
  | Some hook => hook
  | None => standard_ExecutorEnd eng
  end.

(** ** Further notions used in the statements *)

(** The bits lines 251-261 add to [instrument_options], in one mask. *)
Definition requested_instrumentation (guc : GUC) (eflags level : Z) : Z :=
  if pg_plan_watch_enabled guc level &&
     pg_plan_watch_log_analyze guc &&
     (Z.land eflags EXEC_FLAG_EXPLAIN_ONLY =? 0)
  then
    Z.lor
      (Z.lor
         (if pg_plan_watch_log_timing guc then INSTRUMENT_TIMER else INSTRUMENT_ROWS)
         (if pg_plan_watch_log_buffers guc then INSTRUMENT_BUFFERS else 0))
      (if pg_plan_watch_log_wal guc then INSTRUMENT_WAL else 0)
  else 0.

(** [q1] is [q] but for its accumulator. *)
Definition same_but_totaltime (q q1 : QueryDesc) : Prop :=
  sourceText q1 = sourceText q /\
  params q1 = params q /\
  instrument_options q1 = instrument_options q /\
  es_query_cxt q1 = es_query_cxt q.

(** The conditions under which the end phase writes its report, and
    what it writes then. *)
Definition report_due (eng : Engine) (guc : GUC) (s : State)
    (t' : Instrumentation) (data : list ascii) : Prop :=
  exists t es,
    totaltime (queryDesc s) = Some t /\
    pg_plan_watch_enabled guc (nesting_level s) = true /\
    InstrEndLoop eng t = Ok t' /\
    explain_render eng guc (set_totaltime (Some t') (queryDesc s))
      (explain_options guc (set_totaltime (Some t') (queryDesc s))) = Ok es /\
    explain_postprocess guc (str es) = Ok data.

(** [eng] with another trigger printer, another JIT summary printer. *)
Definition with_ExplainPrintTriggers
    (f : ExplainState -> QueryDesc -> Res ExplainOutput) (eng : Engine) : Engine := {|
  standard_ExecutorStart := standard_ExecutorStart eng;
  standard_ExecutorRun := standard_ExecutorRun eng;
  standard_ExecutorFinish := standard_ExecutorFinish eng;
  standard_ExecutorEnd := standard_ExecutorEnd eng;
  InstrAlloc := InstrAlloc eng;
  InstrEndLoop := InstrEndLoop eng;
  ExplainBeginOutput := ExplainBeginOutput eng;
  ExplainQueryText := ExplainQueryText eng;
  ExplainQueryParameters := ExplainQueryParameters eng;
  ExplainPrintPlan := ExplainPrintPlan eng;
  ExplainPrintTriggers := f;
  ExplainPrintJITSummary := ExplainPrintJITSummary eng;
  ExplainEndOutput := ExplainEndOutput eng
|}.

Definition with_ExplainPrintJITSummary
    (f : ExplainState -> QueryDesc -> Res ExplainOutput) (eng : Engine) : Engine := {|
  standard_ExecutorStart := standard_ExecutorStart eng;
  standard_ExecutorRun := standard_ExecutorRun eng;
  standard_ExecutorFinish := standard_ExecutorFinish eng;
  standard_ExecutorEnd := standard_ExecutorEnd eng;
  InstrAlloc := InstrAlloc eng;
  InstrEndLoop := InstrEndLoop eng;
  ExplainBeginOutput := ExplainBeginOutput eng;
  ExplainQueryText := ExplainQueryText eng;
  ExplainQueryParameters := ExplainQueryParameters eng;
  ExplainPrintPlan := ExplainPrintPlan eng;
  ExplainPrintTriggers := ExplainPrintTriggers eng;
  ExplainPrintJITSummary := f;
  ExplainEndOutput := ExplainEndOutput eng
|}.

(** [prev] with another run handler. *)
Definition with_prev_ExecutorRun
    (h : ScanDirection -> Z -> Exec unit) (prev : PrevHooks) : PrevHooks := {|
  prev_ExecutorStart := prev_ExecutorStart prev;
  prev_ExecutorRun := Some h;
  prev_ExecutorFinish := prev_ExecutorFinish prev;
  prev_ExecutorEnd := prev_ExecutorEnd prev
|}.

Definition with_nested_statements (b : bool) (guc : GUC) : GUC := {|
  pg_plan_watch_log_min_duration := pg_plan_watch_log_min_duration guc;
  pg_plan_watch_log_parameter_max_length := pg_plan_watch_log_parameter_max_length guc;
  pg_plan_watch_log_analyze := pg_plan_watch_log_analyze guc;
  pg_plan_watch_log_verbose := pg_plan_watch_log_verbose guc;
  pg_plan_watch_log_buffers := pg_plan_watch_log_buffers guc;
  pg_plan_watch_log_wal := pg_plan_watch_log_wal guc;
  pg_plan_watch_log_triggers := pg_plan_watch_log_triggers guc;
  pg_plan_watch_log_timing := pg_plan_watch_log_timing guc;
  pg_plan_watch_log_settings := pg_plan_watch_log_settings guc;
  pg_plan_watch_log_format := pg_plan_watch_log_format guc;
  pg_plan_watch_log_level := pg_plan_watch_log_level guc;
  pg_plan_watch_log_nested_statements := b
|}.

(** ** More of the small engine *)

Module Demo2.

(** A server in which another observer is already installed. *)
Definition observed_server : Server := {|
  custom_variables := [];
  reserved_prefixes := [];
  ExecutorStart_hook := prev_ExecutorStart Demo.observer;
  ExecutorRun_hook := prev_ExecutorRun Demo.observer;
  ExecutorFinish_hook := prev_ExecutorFinish Demo.observer;
  ExecutorEnd_hook := prev_ExecutorEnd Demo.observer
|}.

(** A server without any hook. *)
Definition plain_server : Server := {|
  custom_variables := [];
  reserved_prefixes := [];
  ExecutorStart_hook := None;
  ExecutorRun_hook := None;
  ExecutorFinish_hook := None;
  ExecutorEnd_hook := None
|}.

(** An observer whose start handler finds the plan invalid. *)
Definition invalidating_observer : PrevHooks := {|
  prev_ExecutorStart := Some (fun _ => mret false);
  prev_ExecutorRun := None;
  prev_ExecutorFinish := None;
  prev_ExecutorEnd := None
|}.

(** A trigger printer and a JIT summary printer that raise. *)
Definition raising_printer : ExplainState -> QueryDesc -> Res ExplainOutput :=
  fun _ _ => Raise "cache lookup failed"%string.

(** Watching on with every option of EXPLAIN ANALYZE. *)
Definition watch_analyze : GUC :=
  with_sub_flags true true true (with_analyze true Demo.watch_all).

End Demo2.

(** ** Reading a written number back *)





(** ** Engines with other renderings *)

Module Demo3.



End Demo3.

(** * Properties *)

(** ** The monad *)

Lemma bind_run {A B} (c : Exec A) (k : A -> Exec B) (s : State) :
  (c ≫= k) s =
  match c s with
  | (Ok a, s1) => k a s1
  | (Raise e, s1) => (Raise e, s1)
  | (Undefined, s1) => (Undefined, s1)
  end.
Proof. reflexivity. Qed.

Lemma bind_get {B} (k : State -> Exec B) (s : State) :
  (get ≫= k) s = k s s.
Proof. reflexivity. Qed.

(** ** The gate *)

Lemma enabled_iff (guc : GUC) (level : Z) :
  pg_plan_watch_enabled guc level = true <->
  0 <= pg_plan_watch_log_min_duration guc /\
  (level = 0 \/ pg_plan_watch_log_nested_statements guc = true).
Proof.
  unfold pg_plan_watch_enabled.
  rewrite andb_true_iff, orb_true_iff, Z.leb_le, Z.eqb_eq. reflexivity.
Qed.

Lemma disabled_sentinel (guc : GUC) (level : Z) :
  pg_plan_watch_log_min_duration guc < 0 ->
  pg_plan_watch_enabled guc level = false.
Proof.
  intros Hneg. unfold pg_plan_watch_enabled.
  destruct (Z.leb_spec 0 (pg_plan_watch_log_min_duration guc)); [lia | reflexivity].
Qed.

Lemma nested_not_enabled (guc : GUC) (level : Z) :
  pg_plan_watch_log_nested_statements guc = false ->
  level <> 0 ->
  pg_plan_watch_enabled guc level = false.
Proof.
  intros Hflag Hlevel. unfold pg_plan_watch_enabled. rewrite Hflag.
  destruct (Z.eqb_spec level 0); [contradiction |].
  apply andb_false_r.
Qed.

(** ** What the wrappers do when the gate is closed *)

Section GateClosed.

Variable eng : Engine.
Variable prev : PrevHooks.
Variable guc : GUC.
Variable s : State.
Hypothesis closed : pg_plan_watch_enabled guc (nesting_level s) = false.

Lemma request_instrumentation_closed (eflags : Z) :
  request_instrumentation guc eflags s = (Ok tt, s).
Proof.
  unfold request_instrumentation. rewrite bind_get, closed. reflexivity.
Qed.

Lemma track_total_time_closed :
  track_total_time eng guc s = (Ok tt, s).
Proof.
  unfold track_total_time. rewrite bind_get, closed. reflexivity.
Qed.

Lemma explain_report_closed :
  explain_report eng guc s = (Ok tt, s).
Proof.
  unfold explain_report. rewrite bind_get, closed.
  destruct (totaltime (queryDesc s)); reflexivity.
Qed.

Lemma explain_ExecutorEnd_closed :
  explain_ExecutorEnd eng prev guc s = call_prev_ExecutorEnd eng prev s.
Proof.
  unfold explain_ExecutorEnd. rewrite bind_run, explain_report_closed.
  reflexivity.
Qed.

End GateClosed.

(** With no accumulator on the descriptor there is no report either. *)
Lemma explain_report_no_totaltime eng guc s :
  totaltime (queryDesc s) = None ->
  explain_report eng guc s = (Ok tt, s).
Proof.
  intros Hnone. unfold explain_report. rewrite bind_get, Hnone. reflexivity.
Qed.

(** The start-phase wrapper once its first block has done nothing. *)
Lemma explain_ExecutorStart_after_request eng prev guc eflags s :
  request_instrumentation guc eflags s = (Ok tt, s) ->
  explain_ExecutorStart eng prev guc eflags s =
  (plan_valid ← call_prev_ExecutorStart eng prev eflags;
   if negb plan_valid then mret false
   else track_total_time eng guc;; mret true) s.
Proof.
  intros Hreq. unfold explain_ExecutorStart.
  rewrite (bind_run (request_instrumentation guc eflags)), Hreq. reflexivity.
Qed.

(** C3: the gate is a function of the GUC variables and of the nesting
    depth alone; it is open exactly when [log_min_duration] is not the
    negative sentinel and the depth is 0 or [log_nested_statements] is
    set. In particular, with [log_nested_statements] off, the end-phase
    wrapper at a depth of 1 or more is the previous handler alone: it
    writes no report. *)
Theorem gate_is_pure_and_hides_nested_statements :
  (forall guc level,
     pg_plan_watch_enabled guc level = true <->
     0 <= pg_plan_watch_log_min_duration guc /\
     (level = 0 \/ pg_plan_watch_log_nested_statements guc = true)) /\
  (forall eng prev guc s,
     pg_plan_watch_log_nested_statements guc = false ->
     1 <= nesting_level s ->
     explain_report eng guc s = (Ok tt, s) /\
     explain_ExecutorEnd eng prev guc s = call_prev_ExecutorEnd eng prev s).
Proof.
  split.
  - exact enabled_iff.
  - intros eng prev guc s Hflag Hdepth.
    assert (Hclosed : pg_plan_watch_enabled guc (nesting_level s) = false)
      by (apply nested_not_enabled; [assumption | lia]).
    split.
    + apply explain_report_closed; assumption.
    + apply explain_ExecutorEnd_closed; assumption.
Qed.

(** C5: with [log_min_duration] at its negative sentinel the start-phase
    wrapper requests no instrumentation and allocates no accumulator (it
    is the previous start handler and nothing else), and the end-phase
    wrapper writes no report (it is the previous end handler and nothing
    else), whatever the other GUC variables are. *)
Theorem disabled_sentinel_does_nothing eng prev guc eflags s :
  pg_plan_watch_log_min_duration guc < 0 ->
  request_instrumentation guc eflags s = (Ok tt, s) /\
  (forall s', track_total_time eng guc s' = (Ok tt, s')) /\
  explain_ExecutorStart eng prev guc eflags s =
    call_prev_ExecutorStart eng prev eflags s /\
  explain_report eng guc s = (Ok tt, s) /\
  explain_ExecutorEnd eng prev guc s = call_prev_ExecutorEnd eng prev s.
Proof.
  intros Hneg.
  assert (Hclosed : forall s', pg_plan_watch_enabled guc (nesting_level s') = false)
    by (intros s'; apply disabled_sentinel; assumption).
  assert (Hreq : request_instrumentation guc eflags s = (Ok tt, s))
    by (apply request_instrumentation_closed, Hclosed).
  repeat split.
  - exact Hreq.
  - intros s'. apply track_total_time_closed, Hclosed.
  - rewrite explain_ExecutorStart_after_request by exact Hreq.
    rewrite bind_run.
    destruct (call_prev_ExecutorStart eng prev eflags s) as [[[|]| |] s1];
      try reflexivity.
    cbn [negb]. rewrite bind_run, track_total_time_closed by apply Hclosed.
    reflexivity.
  - apply explain_report_closed, Hclosed.
  - apply explain_ExecutorEnd_closed, Hclosed.
Qed.

Lemma disabled_sentinel_does_nothing_witness :
  pg_plan_watch_log_min_duration (with_analyze true default_GUC) < 0 /\
  explain_ExecutorStart Demo.engine Demo.observer
    (with_analyze true default_GUC) 0 (Demo.backend 0 Demo.select_1) =
    call_prev_ExecutorStart Demo.engine Demo.observer 0
      (Demo.backend 0 Demo.select_1) /\
  explain_ExecutorEnd Demo.engine Demo.observer
    (with_analyze true default_GUC) (Demo.backend 0 Demo.select_1_done) =
    call_prev_ExecutorEnd Demo.engine Demo.observer
      (Demo.backend 0 Demo.select_1_done).
Proof.
  split; [simpl; lia |]. split.
  - apply (disabled_sentinel_does_nothing Demo.engine Demo.observer
             (with_analyze true default_GUC) 0 (Demo.backend 0 Demo.select_1)).
    simpl. lia.
  - apply (disabled_sentinel_does_nothing Demo.engine Demo.observer
             (with_analyze true default_GUC) 0 (Demo.backend 0 Demo.select_1_done)).
    simpl. lia.
Defined.

Lemma gate_is_pure_and_hides_nested_statements_witness :
  pg_plan_watch_log_nested_statements Demo.watch_all = false /\
  1 <= nesting_level (Demo.backend 1 Demo.select_1_done) /\
  explain_ExecutorEnd Demo.engine Demo.observer Demo.watch_all
    (Demo.backend 1 Demo.select_1_done) =
  call_prev_ExecutorEnd Demo.engine Demo.observer
    (Demo.backend 1 Demo.select_1_done).
Proof.
  split; [reflexivity |]. split; [simpl; lia |].
  apply (proj2 gate_is_pure_and_hides_nested_statements
           Demo.engine Demo.observer Demo.watch_all
           (Demo.backend 1 Demo.select_1_done)).
  - reflexivity.
  - simpl. lia.
Defined.

(** ** The instrumentation request of the start phase *)

Lemma adds_bits_refl (o : Z) : adds_bits o o.
Proof. intros i Hi. exact Hi. Qed.

Lemma adds_bits_lor (old new bit : Z) :
  adds_bits old new -> adds_bits old (Z.lor new bit).
Proof.
  intros Hadd i Hi. rewrite Z.lor_spec, (Hadd i Hi). reflexivity.
Qed.

Lemma only_adds_options_refl (s : State) : only_adds_options s s.
Proof.
  exists (instrument_options (queryDesc s)). split.
  - apply adds_bits_refl.
  - destruct s as [n [t p o c tt] m l]. reflexivity.
Qed.

Lemma or_instrument_options_adds (bit : Z) (s s1 : State) :
  only_adds_options s s1 ->
  exists s2, or_instrument_options bit s1 = (Ok tt, s2) /\ only_adds_options s s2.
Proof.
  intros (o & Hadd & ->).
  eexists. split; [reflexivity |].
  exists (Z.lor o bit). split.
  - apply adds_bits_lor, Hadd.
  - reflexivity.
Qed.

Lemma request_instrumentation_adds guc eflags s :
  exists s1,
    request_instrumentation guc eflags s = (Ok tt, s1) /\ only_adds_options s s1.
Proof.
  pose proof (only_adds_options_refl s) as Hrefl.
  unfold request_instrumentation. rewrite bind_get.
  destruct (pg_plan_watch_enabled guc (nesting_level s));
    [| exists s; split; [reflexivity | exact Hrefl]].
  destruct (pg_plan_watch_log_analyze guc && (Z.land eflags EXEC_FLAG_EXPLAIN_ONLY =? 0));
    [| exists s; split; [reflexivity | exact Hrefl]].
  assert (Hstep1 : exists s1,
            (if pg_plan_watch_log_timing guc
             then or_instrument_options INSTRUMENT_TIMER
             else or_instrument_options INSTRUMENT_ROWS) s = (Ok tt, s1) /\
            only_adds_options s s1)
    by (destruct (pg_plan_watch_log_timing guc);
        apply or_instrument_options_adds, Hrefl).
  destruct Hstep1 as (s1 & Hrun1 & Hadd1).
  assert (Hstep2 : exists s2,
            (if pg_plan_watch_log_buffers guc
             then or_instrument_options INSTRUMENT_BUFFERS
             else mret tt) s1 = (Ok tt, s2) /\
            only_adds_options s s2)
    by (destruct (pg_plan_watch_log_buffers guc);
        [apply or_instrument_options_adds, Hadd1
        | exists s1; split; [reflexivity | exact Hadd1]]).
  destruct Hstep2 as (s2 & Hrun2 & Hadd2).
  assert (Hstep3 : exists s3,
            (if pg_plan_watch_log_wal guc
             then or_instrument_options INSTRUMENT_WAL
             else mret tt) s2 = (Ok tt, s3) /\
            only_adds_options s s3)
    by (destruct (pg_plan_watch_log_wal guc);
        [apply or_instrument_options_adds, Hadd2
        | exists s2; split; [reflexivity | exact Hadd2]]).
  destruct Hstep3 as (s3 & Hrun3 & Hadd3).
  exists s3. split; [| exact Hadd3].
  rewrite bind_run, Hrun1, bind_run, Hrun2. exact Hrun3.
Qed.

Lemma request_instrumentation_explain_only guc eflags s :
  Z.land eflags EXEC_FLAG_EXPLAIN_ONLY <> 0 ->
  request_instrumentation guc eflags s = (Ok tt, s).
Proof.
  intros Hflag. unfold request_instrumentation. rewrite bind_get.
  destruct (pg_plan_watch_enabled guc (nesting_level s)); [| reflexivity].
  destruct (Z.eqb_spec (Z.land eflags EXEC_FLAG_EXPLAIN_ONLY) 0); [contradiction |].
  rewrite andb_false_r. reflexivity.
Qed.

Lemma request_instrumentation_no_analyze guc eflags s :
  pg_plan_watch_log_analyze guc = false ->
  request_instrumentation guc eflags s = (Ok tt, s).
Proof.
  intros Hflag. unfold request_instrumentation. rewrite bind_get, Hflag.
  destruct (pg_plan_watch_enabled guc (nesting_level s)); reflexivity.
Qed.

Lemma track_total_time_present eng guc s :
  totaltime (queryDesc s) <> None ->
  track_total_time eng guc s = (Ok tt, s).
Proof.
  intros Hsome. unfold track_total_time. rewrite bind_get.
  destruct (pg_plan_watch_enabled guc (nesting_level s)); [| reflexivity].
  destruct (totaltime (queryDesc s)); [reflexivity | contradiction].
Qed.

(** C9: when [eflags] has [EXEC_FLAG_EXPLAIN_ONLY], the first block of
    the start-phase wrapper leaves the descriptor as it is (no bit is
    added to [instrument_options]), whatever the gate and [log_analyze]
    say, and the previous start handler receives the state the wrapper
    received. *)
Theorem explain_only_requests_nothing eng prev guc eflags s :
  Z.land eflags EXEC_FLAG_EXPLAIN_ONLY <> 0 ->
  request_instrumentation guc eflags s = (Ok tt, s) /\
  explain_ExecutorStart eng prev guc eflags s =
  (plan_valid ← call_prev_ExecutorStart eng prev eflags;
   if negb plan_valid then mret false
   else track_total_time eng guc;; mret true) s.
Proof.
  intros Hflag.
  pose proof (request_instrumentation_explain_only guc eflags s Hflag) as Hreq.
  split; [exact Hreq |].
  apply explain_ExecutorStart_after_request, Hreq.
Qed.

Lemma explain_only_requests_nothing_witness :
  Z.land 1 EXEC_FLAG_EXPLAIN_ONLY <> 0 /\
  pg_plan_watch_enabled (with_analyze true Demo.watch_all) 0 = true /\
  request_instrumentation (with_analyze true Demo.watch_all) 1
    (Demo.backend 0 Demo.select_1) = (Ok tt, Demo.backend 0 Demo.select_1).
Proof.
  split; [discriminate |]. split; [reflexivity |].
  apply (explain_only_requests_nothing Demo.engine Demo.no_hooks
           (with_analyze true Demo.watch_all) 1 (Demo.backend 0 Demo.select_1)).
  discriminate.
Defined.

(** C10: the first block of the start-phase wrapper changes nothing but
    [instrument_options], and there it only adds bits; an accumulator
    already on the descriptor is kept by it, and the last block does
    nothing when it finds an accumulator. So, when the descriptor
    carries an accumulator on entry and still carries one when the
    previous start handler is back, the wrapper is that handler run on
    the descriptor with the added bits. *)
Theorem start_keeps_accumulator_and_bits eng prev guc eflags s :
  exists s1,
    request_instrumentation guc eflags s = (Ok tt, s1) /\
    only_adds_options s s1 /\
    totaltime (queryDesc s1) = totaltime (queryDesc s) /\
    (forall s', totaltime (queryDesc s') <> None ->
                track_total_time eng guc s' = (Ok tt, s')) /\
    (totaltime (queryDesc s) <> None ->
     track_total_time eng guc s1 = (Ok tt, s1) /\
     forall r s2,
       call_prev_ExecutorStart eng prev eflags s1 = (r, s2) ->
       totaltime (queryDesc s2) <> None ->
       explain_ExecutorStart eng prev guc eflags s = (r, s2)).
Proof.
  destruct (request_instrumentation_adds guc eflags s) as (s1 & Hrun & Hadd).
  exists s1.
  assert (Htot : totaltime (queryDesc s1) = totaltime (queryDesc s))
    by (destruct Hadd as (o & _ & ->); reflexivity).
  split; [exact Hrun |]. split; [exact Hadd |]. split; [exact Htot |].
  split; [intros s'; apply track_total_time_present |].
  intros Hsome. split.
  - apply track_total_time_present. rewrite Htot. exact Hsome.
  - intros r s2 Hprev Hkept.
    unfold explain_ExecutorStart.
    rewrite (bind_run (request_instrumentation guc eflags)), Hrun.
    rewrite bind_run, Hprev.
    destruct r as [[|]| |]; try reflexivity.
    cbn [negb]. rewrite bind_run, track_total_time_present by exact Hkept.
    reflexivity.
Qed.

Lemma start_keeps_accumulator_and_bits_witness :
  totaltime Demo.select_1_done <> None /\
  explain_ExecutorStart Demo.engine Demo.observer
    (with_sub_flags true true false (with_analyze true Demo.watch_all)) 0
    (Demo.backend 0 (set_instrument_options 4 Demo.select_1_done)) =
  call_prev_ExecutorStart Demo.engine Demo.observer 0
    (Demo.backend 0 (set_instrument_options 15 Demo.select_1_done)).
Proof.
  split; [discriminate |].
  destruct (start_keeps_accumulator_and_bits Demo.engine Demo.observer
              (with_sub_flags true true false (with_analyze true Demo.watch_all)) 0
              (Demo.backend 0 (set_instrument_options 4 Demo.select_1_done)))
    as (s1 & Hrun & _ & _ & _ & Hwhole).
  injection Hrun as <-.
  destruct Hwhole as [_ Hwhole]; [discriminate |].
  apply Hwhole; [reflexivity | discriminate].
Defined.

(** ** The sub-flags *)

Lemma enabled_with_sub_flags b w t guc level :
  pg_plan_watch_enabled (with_sub_flags b w t guc) level =
  pg_plan_watch_enabled guc level.
Proof. reflexivity. Qed.

Lemma explain_call_bind {B} (r : Res ExplainOutput) (es : ExplainState)
    (k : ExplainState -> Res B) :
  (explain_call r es ≫= k) =
  match r with
  | Ok o => k (with_output es o)
  | Raise e => Raise e
  | Undefined => Undefined
  end.
Proof. destruct r; reflexivity. Qed.

Lemma explain_options_no_analyze b w t guc q :
  pg_plan_watch_log_analyze guc = false ->
  explain_options (with_sub_flags b w t guc) q = explain_options guc q /\
  analyze (explain_options guc q) = false.
Proof.
  intros Hflag. unfold explain_options. cbn. rewrite Hflag, andb_false_r.
  split; reflexivity.
Qed.

(** Without [analyze] on the [ExplainState] the trigger flag is not
    looked at. *)
Lemma explain_render_no_analyze eng b w t guc q es :
  analyze es = false ->
  explain_render eng (with_sub_flags b w t guc) q es =
  explain_render eng guc q es.
Proof.
  intros Hes. unfold explain_render. cbn [pg_plan_watch_log_parameter_max_length
    pg_plan_watch_log_triggers with_sub_flags].
  rewrite !explain_call_bind.
  destruct (ExplainBeginOutput eng es) as [o1| |]; try reflexivity.
  rewrite !explain_call_bind.
  destruct (ExplainQueryText eng _ q) as [o2| |]; try reflexivity.
  rewrite !explain_call_bind.
  destruct (ExplainQueryParameters eng _ (params q) _) as [o3| |]; try reflexivity.
  rewrite !explain_call_bind.
  destruct (ExplainPrintPlan eng _ q) as [o4| |]; try reflexivity.
  cbn [analyze with_output]. rewrite Hes. reflexivity.
Qed.

(** C6: while [log_analyze] is off, the values of [log_buffers],
    [log_wal] and [log_triggers] change nothing: the start-phase wrapper
    (the instrumentation it requests) and the end-phase wrapper (the
    report it writes) are, as functions of the state, the ones obtained
    with any other values of the three flags; and the start-phase
    request is then empty. *)
Theorem sub_flags_need_analyze eng prev guc b w t eflags s :
  pg_plan_watch_log_analyze guc = false ->
  request_instrumentation (with_sub_flags b w t guc) eflags s = (Ok tt, s) /\
  explain_ExecutorStart eng prev (with_sub_flags b w t guc) eflags s =
    explain_ExecutorStart eng prev guc eflags s /\
  explain_report eng (with_sub_flags b w t guc) s = explain_report eng guc s /\
  explain_ExecutorEnd eng prev (with_sub_flags b w t guc) s =
    explain_ExecutorEnd eng prev guc s.
Proof.
  intros Hflag.
  assert (Hreport : explain_report eng (with_sub_flags b w t guc) s =
                    explain_report eng guc s).
  { unfold explain_report. rewrite !bind_get, enabled_with_sub_flags.
    destruct (totaltime (queryDesc s)) as [acc|]; [| reflexivity].
    destruct (pg_plan_watch_enabled guc (nesting_level s)); [| reflexivity].
    rewrite !bind_run.
    destruct (MemoryContextSwitchTo (es_query_cxt (queryDesc s)) s)
      as [[oldcxt| |] s1]; try reflexivity.
    rewrite !bind_run.
    destruct (lift (InstrEndLoop eng acc) s1) as [[acc'| |] s2]; try reflexivity.
    rewrite !bind_run.
    destruct (modify _ s2) as [[[]| |] s3]; try reflexivity.
    rewrite !bind_get, !bind_run.
    destruct (explain_options_no_analyze b w t guc (queryDesc s3) Hflag)
      as [-> Hes].
    rewrite explain_render_no_analyze by exact Hes.
    reflexivity. }
  split; [apply request_instrumentation_no_analyze; exact Hflag |].
  split; [| split].
  - unfold explain_ExecutorStart.
    rewrite !(bind_run (request_instrumentation _ eflags)).
    rewrite !request_instrumentation_no_analyze by exact Hflag.
    reflexivity.
  - exact Hreport.
  - unfold explain_ExecutorEnd. rewrite !bind_run, Hreport. reflexivity.
Qed.

Lemma sub_flags_need_analyze_witness :
  pg_plan_watch_log_analyze Demo.watch_all = false /\
  explain_ExecutorEnd Demo.engine Demo.observer
    (with_sub_flags true true true Demo.watch_all)
    (Demo.backend 0 Demo.select_1_done) =
  explain_ExecutorEnd Demo.engine Demo.observer Demo.watch_all
    (Demo.backend 0 Demo.select_1_done).
Proof.
  split; [reflexivity |].
  apply (sub_flags_need_analyze Demo.engine Demo.observer Demo.watch_all
           true true true 0 (Demo.backend 0 Demo.select_1_done)).
  reflexivity.
Defined.

(** ** The nesting depth *)

Lemma wrap_int_is_int (z : Z) : is_int (wrap_int z).
Proof.
  unfold is_int, wrap_int, INT_MIN, INT_MAX.
  pose proof (Z.mod_pos_bound (z + 2 ^ 31) (2 ^ 32) ltac:(lia)).
  lia.
Qed.

Lemma wrap_int_small (z : Z) : is_int z -> wrap_int z = z.
Proof.
  unfold is_int, wrap_int, INT_MIN, INT_MAX. intros Hz.
  rewrite Z.mod_small by lia. lia.
Qed.

Lemma wrap_int_incr_decr (n : Z) :
  is_int n -> wrap_int (wrap_int (n + 1) - 1) = n.
Proof.
  intros Hn. destruct (Z.eq_dec n INT_MAX) as [-> | Hne].
  - reflexivity.
  - rewrite (wrap_int_small (n + 1)) by (unfold is_int, INT_MIN, INT_MAX in *; lia).
    replace (n + 1 - 1) with n by lia. apply wrap_int_small, Hn.
Qed.

Lemma incr_nesting_level_run (s : State) :
  incr_nesting_level s =
  (Ok tt, set_nesting_level (wrap_int (nesting_level s + 1)) s).
Proof. reflexivity. Qed.

(** The bracket around a handler: the level the handler sees, the
    outcome that comes back and the level left behind. *)
Lemma bracket_restores_level (h : Exec unit) (s : State) :
  is_int (nesting_level s) ->
  keeps_nesting_level h ->
  returns_or_raises h ->
  let entered := set_nesting_level (wrap_int (nesting_level s + 1)) s in
  fst ((incr_nesting_level;; PG_TRY_FINALLY h decr_nesting_level) s) =
    fst (h entered) /\
  nesting_level (snd ((incr_nesting_level;; PG_TRY_FINALLY h decr_nesting_level) s)) =
    nesting_level s.
Proof.
  intros Hint Hkeeps Hdefined entered.
  rewrite bind_run, incr_nesting_level_run. fold entered.
  assert (Hentered : is_int (nesting_level entered)) by apply wrap_int_is_int.
  pose proof (Hkeeps entered Hentered) as Hlevel.
  pose proof (Hdefined entered) as Hout.
  unfold PG_TRY_FINALLY.
  destruct (h entered) as [[[]| e |] s1]; cbn [fst snd] in *.
  - split; [reflexivity |].
    cbn. rewrite Hlevel. apply wrap_int_incr_decr, Hint.
  - split; [reflexivity |].
    cbn. rewrite Hlevel. apply wrap_int_incr_decr, Hint.
  - contradiction.
Qed.

(** C4: around the previous run handler and around the previous finish
    handler, [nesting_level] is incremented once before the call and
    decremented once after it, whether the handler returns or raises:
    the handler runs one level deeper, its outcome (value or error) is
    the wrapper's, and the wrapper leaves the level it found. *)
Theorem nesting_level_is_bracketed eng prev direction count s :
  is_int (nesting_level s) ->
  keeps_nesting_level (call_prev_ExecutorRun eng prev direction count) ->
  returns_or_raises (call_prev_ExecutorRun eng prev direction count) ->
  keeps_nesting_level (call_prev_ExecutorFinish eng prev) ->
  returns_or_raises (call_prev_ExecutorFinish eng prev) ->
  let entered := set_nesting_level (wrap_int (nesting_level s + 1)) s in
  (fst (explain_ExecutorRun eng prev direction count s) =
     fst (call_prev_ExecutorRun eng prev direction count entered) /\
   nesting_level (snd (explain_ExecutorRun eng prev direction count s)) =
     nesting_level s) /\
  (fst (explain_ExecutorFinish eng prev s) =
     fst (call_prev_ExecutorFinish eng prev entered) /\
   nesting_level (snd (explain_ExecutorFinish eng prev s)) =
     nesting_level s).
Proof.
  intros Hint HkeepR HdefR HkeepF HdefF entered. split.
  - apply bracket_restores_level; assumption.
  - apply bracket_restores_level; assumption.
Qed.

Lemma nesting_level_is_bracketed_witness :
  is_int (nesting_level (Demo.backend INT_MAX Demo.select_1)) /\
  fst (explain_ExecutorRun Demo.engine Demo.observer ForwardScanDirection 0
         (Demo.backend INT_MAX Demo.select_1)) =
    Raise "canceling statement due to user request"%string /\
  nesting_level
    (snd (explain_ExecutorRun Demo.engine Demo.observer ForwardScanDirection 0
            (Demo.backend INT_MAX Demo.select_1))) = INT_MAX /\
  nesting_level
    (snd (explain_ExecutorFinish Demo.engine Demo.observer
            (Demo.backend INT_MAX Demo.select_1))) = INT_MAX.
Proof.
  assert (Hint : is_int (nesting_level (Demo.backend INT_MAX Demo.select_1)))
    by (unfold is_int, INT_MIN, INT_MAX; simpl; lia).
  split; [exact Hint |].
  destruct (nesting_level_is_bracketed Demo.engine Demo.observer
              ForwardScanDirection 0 (Demo.backend INT_MAX Demo.select_1))
    as [[Hout Hrun] [_ Hfinish]].
  - exact Hint.
  - intros s' _. reflexivity.
  - intros s'. discriminate.
  - intros s' _. reflexivity.
  - intros s'. discriminate.
  - split; [rewrite Hout; reflexivity |].
    split; [exact Hrun | exact Hfinish].
Defined.

(** A handler that runs a nested statement through the hooks of this
    module and then raises: the level is back where it was. *)
Example nested_statement_then_error :
  explain_ExecutorRun Demo.engine Demo.nesting_observer ForwardScanDirection 0
    (Demo.backend 0 Demo.select_1) =
  (Raise "division by zero"%string, Demo.backend 0 Demo.select_1).
Proof. reflexivity. Qed.

(** ** The end phase *)

(** The report, when it is due and every call of it returns. *)
Lemma explain_report_emits eng guc s t t' es data :
  totaltime (queryDesc s) = Some t ->
  pg_plan_watch_enabled guc (nesting_level s) = true ->
  InstrEndLoop eng t = Ok t' ->
  let q := set_totaltime (Some t') (queryDesc s) in
  explain_render eng guc q (explain_options guc q) = Ok es ->
  explain_postprocess guc (str es) = Ok data ->
  explain_report eng guc s =
  (Ok tt,
   set_server_log (server_log s ++ [report_entry guc t' data]) (set_queryDesc q s)).
Proof.
  intros Htot Hgate Hloop q Hrender Hpost.
  unfold explain_report. rewrite bind_get, Htot, Hgate.
  rewrite bind_run. cbn [MemoryContextSwitchTo].
  rewrite bind_run. unfold lift at 1. rewrite Hloop.
  rewrite bind_run. unfold modify at 1.
  rewrite bind_get, bind_run. cbn [queryDesc set_queryDesc set_CurrentMemoryContext].
  fold q. unfold lift at 1. rewrite Hrender.
  rewrite bind_run. unfold lift at 1. rewrite Hpost.
  destruct s as [level qd cxt log]. reflexivity.
Qed.

(** The threshold has no part in the report: once it is not negative,
    its value is not read. *)
Lemma threshold_value_is_ignored eng guc d s :
  0 <= d ->
  explain_report eng (with_min_duration d guc) s =
  explain_report eng (with_min_duration 0 guc) s.
Proof.
  intros Hd. unfold explain_report. rewrite !bind_get.
  assert (Hgate : pg_plan_watch_enabled (with_min_duration d guc) (nesting_level s) =
                  pg_plan_watch_enabled (with_min_duration 0 guc) (nesting_level s)).
  { unfold pg_plan_watch_enabled. cbn.
    destruct (Z.leb_spec 0 d); [reflexivity | lia]. }
  rewrite Hgate. reflexivity.
Qed.

(** C1 (as the code behaves): with [log_min_duration] at 1000 ms, the
    end-phase wrapper writes a report for a top-level statement whose
    accumulator holds 0.123 ms, although 0.123 ms is below the
    threshold. *)
Theorem report_written_below_threshold :
  pg_plan_watch_log_min_duration Demo.watch_slow = 1000 /\
  SFltb (dbl_mul Demo.seconds_000123 dbl_1000) (Demo.dbl_of_Z 1000) = true /\
  explain_ExecutorEnd Demo.engine Demo.no_hooks Demo.watch_slow
    (Demo.backend 0 Demo.select_1_done) =
  (Ok tt,
   set_server_log
     [{| elevel := LOG;
         message :=
           String.append "duration: 0.123 ms  plan:"
             (String LF
                (String.append "Query Text: SELECT 1"
                   (String LF "Result  (cost=0.00..0.01 rows=1 width=4)")));
         hide_stmt := true |}]
     (Demo.backend 0 Demo.select_1_done)).
Proof.
  split; [reflexivity |]. split; vm_compute; reflexivity.
Qed.

(** C2 (as stated) fails: when the plan printer raises, the end-phase
    wrapper ends with that error and the previous end handler has not
    run (its line is not in the log), where the bracketed wrapper of the
    specification would have run it. *)
Lemma end_delegate_skipped_on_failure :
  explain_ExecutorEnd Demo.failing_engine Demo.observer Demo.watch_all
    (Demo.backend 0 Demo.select_1_done) =
  (Raise "unrecognized node type: 0"%string,
   set_CurrentMemoryContext 7%nat (Demo.backend 0 Demo.select_1_done)) /\
  explain_ExecutorEnd_bracketed Demo.failing_engine Demo.observer Demo.watch_all
    (Demo.backend 0 Demo.select_1_done) =
  (Raise "unrecognized node type: 0"%string,
   set_server_log
     [{| elevel := LOG; message := "observer: end"; hide_stmt := false |}]
     (set_CurrentMemoryContext 7%nat (Demo.backend 0 Demo.select_1_done))).
Proof. split; reflexivity. Qed.

(** C2 (amended): when the report block returns (a report was written,
    or none was due), the previous end handler (or the engine default)
    is run once, on the state the report left, and its outcome is the
    wrapper's; when a call of the report block raises, the wrapper ends
    at once with that error and with the state of that moment, whatever
    the previous end handler is: it is not run. *)
Theorem end_delegates_after_report eng prev guc s :
  (forall s1,
     explain_report eng guc s = (Ok tt, s1) ->
     explain_ExecutorEnd eng prev guc s = call_prev_ExecutorEnd eng prev s1) /\
  (forall e s1,
     explain_report eng guc s = (Raise e, s1) ->
     forall prev', explain_ExecutorEnd eng prev' guc s = (Raise e, s1)).
Proof.
  split.
  - intros s1 Hreport. unfold explain_ExecutorEnd.
    rewrite bind_run, Hreport. reflexivity.
  - intros e s1 Hreport prev'. unfold explain_ExecutorEnd.
    rewrite bind_run, Hreport. reflexivity.
Qed.

Lemma end_delegates_after_report_witness :
  (explain_report Demo.engine Demo.watch_all (Demo.backend 0 Demo.select_1_done) =
     (Ok tt,
      set_server_log
        [report_entry Demo.watch_all {| total := Demo.seconds_000123 |}
           (list_ascii_of_string
              (String.append "Query Text: SELECT 1"
                 (String LF "Result  (cost=0.00..0.01 rows=1 width=4)")))]
        (Demo.backend 0 Demo.select_1_done)) /\
   server_log
     (snd (explain_ExecutorEnd Demo.engine Demo.observer Demo.watch_all
             (Demo.backend 0 Demo.select_1_done))) =
     [report_entry Demo.watch_all {| total := Demo.seconds_000123 |}
        (list_ascii_of_string
           (String.append "Query Text: SELECT 1"
              (String LF "Result  (cost=0.00..0.01 rows=1 width=4)")));
      {| elevel := LOG; message := "observer: end"; hide_stmt := false |}]) /\
  (explain_report Demo.failing_engine Demo.watch_all
     (Demo.backend 0 Demo.select_1_done) =
     (Raise "unrecognized node type: 0"%string,
      set_CurrentMemoryContext 7%nat (Demo.backend 0 Demo.select_1_done)) /\
   explain_ExecutorEnd Demo.failing_engine Demo.observer Demo.watch_all
     (Demo.backend 0 Demo.select_1_done) =
     (Raise "unrecognized node type: 0"%string,
      set_CurrentMemoryContext 7%nat (Demo.backend 0 Demo.select_1_done))).
Proof.
  split.
  - assert (Hreport :
      explain_report Demo.engine Demo.watch_all (Demo.backend 0 Demo.select_1_done) =
      (Ok tt,
       set_server_log
         [report_entry Demo.watch_all {| total := Demo.seconds_000123 |}
            (list_ascii_of_string
               (String.append "Query Text: SELECT 1"
                  (String LF "Result  (cost=0.00..0.01 rows=1 width=4)")))]
         (Demo.backend 0 Demo.select_1_done))) by reflexivity.
    split; [exact Hreport |].
    rewrite (proj1 (end_delegates_after_report Demo.engine Demo.observer
                      Demo.watch_all (Demo.backend 0 Demo.select_1_done))
               _ Hreport).
    reflexivity.
  - assert (Hreport :
      explain_report Demo.failing_engine Demo.watch_all
        (Demo.backend 0 Demo.select_1_done) =
      (Raise "unrecognized node type: 0"%string,
       set_CurrentMemoryContext 7%nat (Demo.backend 0 Demo.select_1_done)))
      by reflexivity.
    split; [exact Hreport |].
    apply (proj2 (end_delegates_after_report Demo.failing_engine Demo.no_hooks
                    Demo.watch_all (Demo.backend 0 Demo.select_1_done))
             _ _ Hreport).
Defined.

(** ** The corrections made to the rendered text *)

Lemma len_app (l k : StringInfo) : len (l ++ k) = len l + len k.
Proof. unfold len. rewrite length_app. lia. Qed.

Lemma char_at_last (l : StringInfo) (c : ascii) :
  char_at (l ++ [c]) (len (l ++ [c]) - 1) = Some c.
Proof.
  unfold char_at. rewrite len_app. unfold len. cbn [List.length].
  replace (Z.of_nat (List.length l) + Z.of_nat 1 - 1) with (Z.of_nat (List.length l)) by lia.
  rewrite Nat2Z.id.
  destruct (Z.leb_spec 0 (Z.of_nat (List.length l))); [| lia].
  destruct (Z.ltb_spec (Z.of_nat (List.length l)) (Z.of_nat (List.length l) + Z.of_nat 1));
    [| lia].
  cbn [andb]. apply list_lookup_middle. reflexivity.
Qed.

Lemma remove_last_line_break_snoc (body : StringInfo) :
  remove_last_line_break (body ++ [LF]) = body.
Proof.
  unfold remove_last_line_break. rewrite char_at_last.
  rewrite len_app. unfold len. cbn [List.length].
  destruct (Z.ltb_spec 0 (Z.of_nat (List.length body) + Z.of_nat 1)); [| lia].
  cbn [andb]. rewrite Ascii.eqb_refl.
  replace (Z.to_nat (Z.of_nat (List.length body) + Z.of_nat 1 - 1))
    with (List.length body) by lia.
  apply take_app_length.
Qed.

Lemma remove_last_line_break_other (text : StringInfo) :
  list.last text <> Some LF -> remove_last_line_break text = text.
Proof.
  intros Hlast. unfold remove_last_line_break.
  destruct (0 <? len text) eqn:Hlen; [| reflexivity].
  destruct (char_at text (len text - 1)) as [c|] eqn:Hchar; [| reflexivity].
  destruct (Ascii.eqb_spec c LF) as [-> | Hne]; [| reflexivity].
  exfalso. apply Hlast. rewrite last_lookup.
  unfold char_at in Hchar.
  destruct ((0 <=? len text - 1) && (len text - 1 <? len text)); [| discriminate].
  replace (Nat.pred (List.length text)) with (Z.to_nat (len text - 1))
    by (unfold len; lia).
  exact Hchar.
Qed.

Lemma store_char_first (c x : ascii) (l : StringInfo) :
  store_char (c :: l) 0 x = Ok (x :: l).
Proof. reflexivity. Qed.

Lemma store_char_last (l : StringInfo) (c x : ascii) :
  store_char (l ++ [c]) (len (l ++ [c]) - 1) x = Ok (l ++ [x]).
Proof.
  unfold store_char. rewrite len_app. unfold len. cbn [List.length].
  replace (Z.of_nat (List.length l) + Z.of_nat 1 - 1) with (Z.of_nat (List.length l)) by lia.
  rewrite Nat2Z.id.
  destruct (Z.leb_spec 0 (Z.of_nat (List.length l))); [| lia].
  destruct (Z.ltb_spec (Z.of_nat (List.length l)) (Z.of_nat (List.length l) + Z.of_nat 1));
    [| lia].
  cbn [andb]. f_equal.
  rewrite insert_app_r_alt by lia. rewrite Nat.sub_diag. reflexivity.
Qed.

Lemma fix_json_two_or_more (c0 cl : ascii) (body : StringInfo) :
  fix_json (c0 :: body ++ [cl]) = Ok ("{"%char :: body ++ ["}"%char]).
Proof.
  unfold fix_json. rewrite store_char_first. cbn [mbind Res_bind].
  apply (store_char_last ("{"%char :: body) cl "}"%char).
Qed.

(** C7 (as stated) fails: a rendered text of one character is not empty,
    and after the two stores it is the single character '}': it does not
    begin with '{'. *)
Lemma json_text_of_one_character :
  list_ascii_of_string "x" <> [] /\
  explain_postprocess (with_format EXPLAIN_FORMAT_JSON Demo.watch_all)
    (list_ascii_of_string "x") = Ok (list_ascii_of_string "}") /\
  list.head (list_ascii_of_string "}") <> Some "{"%char.
Proof. repeat split; discriminate. Qed.

(** C7 (amended): in JSON format, when the rendered text still has two
    characters or more once its last line break is removed, the text
    handed to the log is that text with '{' in place of its first
    character and '}' in place of its last one, the characters between
    them unchanged. *)
Theorem json_first_and_last_character guc data c0 body cl :
  pg_plan_watch_log_format guc = EXPLAIN_FORMAT_JSON ->
  remove_last_line_break data = c0 :: body ++ [cl] ->
  explain_postprocess guc data = Ok ("{"%char :: body ++ ["}"%char]) /\
  list.head ("{"%char :: body ++ ["}"%char]) = Some "{"%char /\
  list.last ("{"%char :: body ++ ["}"%char]) = Some "}"%char /\
  len ("{"%char :: body ++ ["}"%char]) = len (remove_last_line_break data).
Proof.
  intros Hformat Htext. unfold explain_postprocess. rewrite Hformat, Htext.
  split; [apply fix_json_two_or_more |].
  split; [reflexivity |].
  split.
  - change ("{"%char :: body ++ ["}"%char]) with (("{"%char :: body) ++ ["}"%char]).
    apply last_snoc.
  - unfold len. cbn [List.length]. rewrite !length_app. reflexivity.
Qed.

Lemma json_first_and_last_character_witness :
  remove_last_line_break (list_ascii_of_string "[1]") =
    "["%char :: list_ascii_of_string "1" ++ ["]"%char] /\
  explain_postprocess (with_format EXPLAIN_FORMAT_JSON Demo.watch_all)
    (list_ascii_of_string "[1]") = Ok (list_ascii_of_string "{1}").
Proof.
  split; [reflexivity |].
  apply (json_first_and_last_character
           (with_format EXPLAIN_FORMAT_JSON Demo.watch_all)
           (list_ascii_of_string "[1]") "["%char (list_ascii_of_string "1") "]"%char).
  - reflexivity.
  - reflexivity.
Defined.

(** What the two stores do to shorter texts. *)
Example json_text_of_one_line_break :
  explain_postprocess (with_format EXPLAIN_FORMAT_JSON Demo.watch_all) [LF] = Undefined.
Proof. reflexivity. Qed.

(** ** The message of the report *)











(** *** The number written and its value *)










(** *** The end of the message *)






(** * Further properties of the hooks *)

(** ** The start phase *)

(** The first block of the start-phase wrapper in one step. *)
Lemma request_instrumentation_run guc eflags s :
  request_instrumentation guc eflags s =
  (Ok tt,
   set_queryDesc
     (set_instrument_options
        (Z.lor (instrument_options (queryDesc s))
           (requested_instrumentation guc eflags (nesting_level s)))
        (queryDesc s)) s).
Proof.
  unfold request_instrumentation, requested_instrumentation.
  rewrite bind_get.
  destruct s as [level [text pars opts cxt acc] mcxt log].
  cbn [nesting_level queryDesc instrument_options].
  destruct (pg_plan_watch_enabled guc level); cbn [andb];
    [| rewrite Z.lor_0_r; reflexivity].
  destruct (pg_plan_watch_log_analyze guc); cbn [andb];
    [| rewrite Z.lor_0_r; reflexivity].
  destruct (Z.land eflags EXEC_FLAG_EXPLAIN_ONLY =? 0);
    [| rewrite Z.lor_0_r; reflexivity].
  destruct (pg_plan_watch_log_timing guc), (pg_plan_watch_log_buffers guc),
    (pg_plan_watch_log_wal guc);
    cbn -[Z.lor INSTRUMENT_TIMER INSTRUMENT_ROWS INSTRUMENT_BUFFERS INSTRUMENT_WAL];
    rewrite ?Z.lor_0_r, ?Z.lor_assoc; reflexivity.
Qed.

Lemma testbit_requested guc eflags level i :
  Z.testbit (requested_instrumentation guc eflags level) i =
  pg_plan_watch_enabled guc level && pg_plan_watch_log_analyze guc &&
  (Z.land eflags EXEC_FLAG_EXPLAIN_ONLY =? 0) &&
  ((i =? 0) && pg_plan_watch_log_timing guc ||
   (i =? 1) && pg_plan_watch_log_buffers guc ||
   (i =? 2) && negb (pg_plan_watch_log_timing guc) ||
   (i =? 3) && pg_plan_watch_log_wal guc).
Proof.
  unfold requested_instrumentation.
  destruct (pg_plan_watch_enabled guc level && pg_plan_watch_log_analyze guc &&
            (Z.land eflags EXEC_FLAG_EXPLAIN_ONLY =? 0));
    [| apply Z.bits_0].
  cbn [andb]. rewrite !Z.lor_spec.
  change INSTRUMENT_TIMER with (2 ^ 0). change INSTRUMENT_ROWS with (2 ^ 2).
  change INSTRUMENT_BUFFERS with (2 ^ 1). change INSTRUMENT_WAL with (2 ^ 3).
  destruct (pg_plan_watch_log_timing guc), (pg_plan_watch_log_buffers guc),
    (pg_plan_watch_log_wal guc);
    rewrite ?Z.pow2_bits_eqb, ?Z.bits_0 by lia;
    rewrite ?(Z.eqb_sym i);
    destruct (0 =? i), (1 =? i), (2 =? i), (3 =? i); reflexivity.
Qed.

(** X1: when the previous start handler does not return [true] (it
    finds the plan invalid, or raises), the start-phase wrapper ends
    with that very outcome in the state the handler left: its last
    block is not run, so no accumulator is allocated, whatever the GUC
    variables are. *)
Theorem start_stops_without_valid_plan eng prev guc eflags s s1 r s2 :
  request_instrumentation guc eflags s = (Ok tt, s1) ->
  call_prev_ExecutorStart eng prev eflags s1 = (r, s2) ->
  r <> Ok true ->
  explain_ExecutorStart eng prev guc eflags s = (r, s2).
Proof.
  intros Hreq Hprev Hr. unfold explain_ExecutorStart.
  rewrite (bind_run (request_instrumentation guc eflags)), Hreq.
  rewrite bind_run, Hprev.
  destruct r as [[|]| |]; [contradiction | reflexivity ..].
Qed.

Lemma start_stops_without_valid_plan_witness :
  pg_plan_watch_enabled Demo.watch_all 0 = true /\
  explain_ExecutorStart Demo.engine Demo2.invalidating_observer Demo.watch_all 0
    (Demo.backend 0 Demo.select_1) = (Ok false, Demo.backend 0 Demo.select_1).
Proof.
  split; [reflexivity |].
  apply (start_stops_without_valid_plan Demo.engine Demo2.invalidating_observer
           Demo.watch_all 0 (Demo.backend 0 Demo.select_1)
           (Demo.backend 0 Demo.select_1)).
  - reflexivity.
  - reflexivity.
  - discriminate.
Defined.

(** The last block of the start-phase wrapper, when it returns. *)
Lemma track_total_time_returns eng guc s2 final :
  track_total_time eng guc s2 = (Ok tt, final) ->
  (pg_plan_watch_enabled guc (nesting_level s2) = true ->
   totaltime (queryDesc final) <> None /\
   CurrentMemoryContext final = CurrentMemoryContext s2) /\
  (pg_plan_watch_enabled guc (nesting_level s2) = false -> final = s2) /\
  (totaltime (queryDesc s2) <> None -> final = s2).
Proof.
  unfold track_total_time. rewrite bind_get.
  destruct (pg_plan_watch_enabled guc (nesting_level s2)).
  - destruct (totaltime (queryDesc s2)) as [acc|] eqn:Hacc.
    + intros [= <-]. rewrite Hacc.
      repeat split; try reflexivity; discriminate.
    + rewrite bind_run. cbn [MemoryContextSwitchTo]. rewrite bind_run.
      destruct (InstrAlloc eng 1 INSTRUMENT_ALL false _) as [[t| |] s3];
        try discriminate.
      intros [= <-].
      repeat split; try discriminate; contradiction.
  - intros [= <-]. repeat split; try reflexivity; discriminate.
Qed.

(** X2: when the start-phase wrapper returns [true], the previous start
    handler has returned [true] on the descriptor with the requested
    bits; if the gate is open in the state the handler left, the
    descriptor then carries an accumulator and the current memory
    context is the one the handler left; if the gate is closed, or the
    handler left an accumulator, the wrapper changes nothing more. *)
Theorem start_success_leaves_accumulator eng prev guc eflags s final :
  explain_ExecutorStart eng prev guc eflags s = (Ok true, final) ->
  exists s1 s2,
    request_instrumentation guc eflags s = (Ok tt, s1) /\
    call_prev_ExecutorStart eng prev eflags s1 = (Ok true, s2) /\
    (pg_plan_watch_enabled guc (nesting_level s2) = true ->
     totaltime (queryDesc final) <> None /\
     CurrentMemoryContext final = CurrentMemoryContext s2) /\
    (pg_plan_watch_enabled guc (nesting_level s2) = false -> final = s2) /\
    (totaltime (queryDesc s2) <> None -> final = s2).
Proof.
  intros Hstart.
  pose proof (request_instrumentation_run guc eflags s) as Hreq.
  eexists. unfold explain_ExecutorStart in Hstart.
  rewrite (bind_run (request_instrumentation guc eflags)), Hreq in Hstart.
  rewrite bind_run in Hstart.
  destruct (call_prev_ExecutorStart eng prev eflags _) as [[[|]| |] s2] eqn:Hprev;
    try discriminate.
  exists s2. split; [exact Hreq |]. split; [exact Hprev |].
  cbn [negb] in Hstart. rewrite bind_run in Hstart.
  destruct (track_total_time eng guc s2) as [[[]| |] s3] eqn:Htrack;
    try discriminate.
  injection Hstart as <-.
  apply track_total_time_returns with (eng := eng). exact Htrack.
Qed.

Lemma start_success_leaves_accumulator_witness :
  explain_ExecutorStart Demo.engine Demo.no_hooks Demo.watch_all 0
    (Demo.backend 0 Demo.select_1) =
    (Ok true,
     Demo.backend 0 (set_totaltime (Some {| total := S754_zero false |}) Demo.select_1)) /\
  totaltime
    (queryDesc
       (Demo.backend 0
          (set_totaltime (Some {| total := S754_zero false |}) Demo.select_1))) <> None.
Proof.
  assert (Hrun :
    explain_ExecutorStart Demo.engine Demo.no_hooks Demo.watch_all 0
      (Demo.backend 0 Demo.select_1) =
    (Ok true,
     Demo.backend 0 (set_totaltime (Some {| total := S754_zero false |}) Demo.select_1)))
    by reflexivity.
  split; [exact Hrun |].
  destruct (start_success_leaves_accumulator _ _ _ _ _ _ Hrun)
    as (s1 & s2 & Hreq & Hprev & Hopen & _).
  injection Hreq as <-. injection Hprev as <-.
  apply Hopen. reflexivity.
Defined.

(** X3: when the gate is open, [log_analyze] is on and
    [EXEC_FLAG_EXPLAIN_ONLY] is not in [eflags], the first block of the
    start-phase wrapper sets bit 0 (timer) if [log_timing] is on and bit
    2 (rows) if it is off, bit 1 (buffers) if [log_buffers] is on and
    bit 3 (WAL) if [log_wal] is on; every other bit of
    [instrument_options], and the rest of the state, is as before. *)
Theorem start_requests_exactly_the_configured_bits guc eflags s :
  pg_plan_watch_enabled guc (nesting_level s) = true ->
  pg_plan_watch_log_analyze guc = true ->
  Z.land eflags EXEC_FLAG_EXPLAIN_ONLY = 0 ->
  exists o,
    request_instrumentation guc eflags s =
      (Ok tt, set_queryDesc (set_instrument_options o (queryDesc s)) s) /\
    forall i,
      Z.testbit o i =
      Z.testbit (instrument_options (queryDesc s)) i ||
      ((i =? 0) && pg_plan_watch_log_timing guc ||
       (i =? 1) && pg_plan_watch_log_buffers guc ||
       (i =? 2) && negb (pg_plan_watch_log_timing guc) ||
       (i =? 3) && pg_plan_watch_log_wal guc).
Proof.
  intros Hgate Hanalyze Hflag.
  eexists. split; [apply request_instrumentation_run |].
  intros i. rewrite Z.lor_spec, testbit_requested, Hgate, Hanalyze, Hflag.
  reflexivity.
Qed.

Lemma start_requests_exactly_the_configured_bits_witness :
  pg_plan_watch_enabled Demo2.watch_analyze 0 = true /\
  pg_plan_watch_log_analyze Demo2.watch_analyze = true /\
  exists o,
    request_instrumentation Demo2.watch_analyze 0 (Demo.backend 0 Demo.select_1) =
      (Ok tt, Demo.backend 0 (set_instrument_options o Demo.select_1)) /\
    Z.testbit o 0 = true /\ Z.testbit o 1 = true /\
    Z.testbit o 2 = false /\ Z.testbit o 3 = true /\ Z.testbit o 4 = false.
Proof.
  split; [reflexivity |]. split; [reflexivity |].
  destruct (start_requests_exactly_the_configured_bits Demo2.watch_analyze 0
              (Demo.backend 0 Demo.select_1))
    as (o & Hrun & Hbits); [reflexivity | reflexivity | reflexivity |].
  exists o. split; [exact Hrun |].
  rewrite !Hbits. repeat split; reflexivity.
Defined.

(** X4: the request is idempotent: run on the state it has left, the
    first block of the start-phase wrapper leaves that state as it is,
    so a second wrapper of the same kind in the chain adds nothing. *)
Theorem start_request_is_idempotent guc eflags s s1 :
  request_instrumentation guc eflags s = (Ok tt, s1) ->
  request_instrumentation guc eflags s1 = (Ok tt, s1).
Proof.
  rewrite !request_instrumentation_run. intros [= <-].
  cbn [nesting_level queryDesc instrument_options set_queryDesc
       set_instrument_options].
  rewrite <- Z.lor_assoc, Z.lor_diag. reflexivity.
Qed.

Lemma start_request_is_idempotent_witness :
  request_instrumentation Demo2.watch_analyze 0
    (Demo.backend 0 (set_instrument_options 11 Demo.select_1)) =
  (Ok tt, Demo.backend 0 (set_instrument_options 11 Demo.select_1)).
Proof.
  apply (start_request_is_idempotent Demo2.watch_analyze 0
           (Demo.backend 0 Demo.select_1)).
  reflexivity.
Defined.

(** ** The report of the end phase *)

(** The report block when a report is due: the outcome and the state
    after each call that may end it. *)
Lemma explain_report_due eng guc s t :
  totaltime (queryDesc s) = Some t ->
  pg_plan_watch_enabled guc (nesting_level s) = true ->
  explain_report eng guc s =
  let entered := set_CurrentMemoryContext (es_query_cxt (queryDesc s)) s in
  match InstrEndLoop eng t with
  | Ok t' =>
      let q := set_totaltime (Some t') (queryDesc s) in
      match explain_render eng guc q (explain_options guc q) with
      | Ok es =>
          match explain_postprocess guc (str es) with
          | Ok data =>
              (Ok tt,
               set_server_log (server_log s ++ [report_entry guc t' data])
                 (set_queryDesc q s))
          | Raise e => (Raise e, set_queryDesc q entered)
          | Undefined => (Undefined, set_queryDesc q entered)
          end
      | Raise e => (Raise e, set_queryDesc q entered)
      | Undefined => (Undefined, set_queryDesc q entered)
      end
  | Raise e => (Raise e, entered)
  | Undefined => (Undefined, entered)
  end.
Proof.
  intros Htot Hgate.
  unfold explain_report. rewrite bind_get, Htot, Hgate.
  rewrite bind_run. cbn [MemoryContextSwitchTo].
  rewrite bind_run. unfold lift at 1.
  destruct (InstrEndLoop eng t) as [t'| e |]; [| reflexivity | reflexivity].
  rewrite bind_run. unfold modify at 1.
  rewrite bind_get, bind_run.
  cbn [queryDesc set_queryDesc set_CurrentMemoryContext].
  unfold lift at 1.
  destruct (explain_render eng guc _ _) as [es| e |]; [| reflexivity | reflexivity].
  rewrite bind_run. unfold lift at 1.
  destruct (explain_postprocess guc (str es)) as [data| e |];
    [| reflexivity | reflexivity].
  destruct s as [level qd cxt log]. reflexivity.
Qed.

(** When no report is due the block does nothing. *)
Lemma explain_report_not_due eng guc s :
  totaltime (queryDesc s) = None \/
  pg_plan_watch_enabled guc (nesting_level s) = false ->
  explain_report eng guc s = (Ok tt, s).
Proof.
  intros [Hnone | Hclosed].
  - apply explain_report_no_totaltime, Hnone.
  - apply explain_report_closed, Hclosed.
Qed.

Lemma due_or_not guc s :
  (exists t, totaltime (queryDesc s) = Some t /\
             pg_plan_watch_enabled guc (nesting_level s) = true) \/
  (totaltime (queryDesc s) = None \/
   pg_plan_watch_enabled guc (nesting_level s) = false).
Proof.
  destruct (totaltime (queryDesc s)) as [t|]; [| right; left; reflexivity].
  destruct (pg_plan_watch_enabled guc (nesting_level s));
    [left; exists t; split; reflexivity | right; right; reflexivity].
Qed.

Lemma snoc_not_same {A} (l : list A) (x : A) : l ++ [x] <> l.
Proof.
  intros Heq. apply (f_equal (@List.length A)) in Heq.
  rewrite length_app in Heq. cbn in Heq. lia.
Qed.

(** X5: when the end-phase report block returns or raises (its
    behaviour is defined), the log has grown exactly when the
    descriptor carries an accumulator, the gate is open and
    [InstrEndLoop], the EXPLAIN calls and the corrections of the text
    all return; under these conditions the block returns and the log
    has grown by the one entry of the report. Nothing else is looked
    at: the elapsed time is not compared with anything. *)
Theorem report_written_iff eng guc s :
  (fst (explain_report eng guc s) <> Undefined ->
   (server_log (snd (explain_report eng guc s)) <> server_log s <->
    exists t' data, report_due eng guc s t' data)) /\
  (forall t' data,
     report_due eng guc s t' data ->
     explain_report eng guc s =
     (Ok tt,
      set_server_log (server_log s ++ [report_entry guc t' data])
        (set_queryDesc (set_totaltime (Some t') (queryDesc s)) s))).
Proof.
  assert (Hemit : forall t' data,
            report_due eng guc s t' data ->
            explain_report eng guc s =
            (Ok tt,
             set_server_log (server_log s ++ [report_entry guc t' data])
               (set_queryDesc (set_totaltime (Some t') (queryDesc s)) s))).
  { intros t' data (t & es & Htot & Hgate & Hloop & Hrender & Hpost).
    apply (explain_report_emits eng guc s t t' es data); assumption. }
  split; [| exact Hemit]. intros Hdefined. split.
  - intros Hgrown.
    destruct (due_or_not guc s) as [(t & Htot & Hgate) | Hnot];
      [| rewrite (explain_report_not_due eng guc s Hnot) in Hgrown;
         contradiction].
    rewrite (explain_report_due eng guc s t Htot Hgate) in Hgrown.
    cbv zeta in Hgrown.
    destruct (InstrEndLoop eng t) as [t'| e |] eqn:Hloop;
      [| contradiction | contradiction].
    destruct (explain_render eng guc _ _) as [es| e |] eqn:Hrender;
      [| contradiction | contradiction].
    destruct (explain_postprocess guc (str es)) as [data| e |] eqn:Hpost;
      [| contradiction | contradiction].
    exists t', data, t, es. repeat split; assumption.
  - intros (t' & data & Hdue). rewrite (Hemit t' data Hdue).
    apply snoc_not_same.
Qed.

Lemma report_written_iff_witness :
  fst (explain_report Demo.engine Demo.watch_slow
         (Demo.backend 0 Demo.select_1_done)) <> Undefined /\
  report_due Demo.engine Demo.watch_slow (Demo.backend 0 Demo.select_1_done)
    {| total := Demo.seconds_000123 |}
    (list_ascii_of_string
       (String.append "Query Text: SELECT 1"
          (String LF "Result  (cost=0.00..0.01 rows=1 width=4)"))) /\
  server_log
    (snd (explain_report Demo.engine Demo.watch_slow
            (Demo.backend 0 Demo.select_1_done))) <>
  server_log (Demo.backend 0 Demo.select_1_done).
Proof.
  assert (Hdue :
    report_due Demo.engine Demo.watch_slow (Demo.backend 0 Demo.select_1_done)
      {| total := Demo.seconds_000123 |}
      (list_ascii_of_string
         (String.append "Query Text: SELECT 1"
            (String LF "Result  (cost=0.00..0.01 rows=1 width=4)")))).
  { exists {| total := Demo.seconds_000123 |}. eexists.
    repeat split; reflexivity. }
  assert (Hdefined :
    fst (explain_report Demo.engine Demo.watch_slow
           (Demo.backend 0 Demo.select_1_done)) <> Undefined) by discriminate.
  split; [exact Hdefined |]. split; [exact Hdue |].
  apply (proj1 (report_written_iff Demo.engine Demo.watch_slow
                  (Demo.backend 0 Demo.select_1_done)) Hdefined).
  eexists. eexists. exact Hdue.
Defined.

(** X6: whatever its outcome, the end-phase report block leaves
    [nesting_level] and every field of the descriptor but the
    accumulator as they were, and adds at most one entry to the log;
    when it returns, the current memory context is the one it found. *)
Theorem report_frame eng guc s :
  nesting_level (snd (explain_report eng guc s)) = nesting_level s /\
  same_but_totaltime (queryDesc s) (queryDesc (snd (explain_report eng guc s))) /\
  (exists extra,
     server_log (snd (explain_report eng guc s)) = server_log s ++ extra /\
     (List.length extra <= 1)%nat) /\
  (fst (explain_report eng guc s) = Ok tt ->
   CurrentMemoryContext (snd (explain_report eng guc s)) = CurrentMemoryContext s).
Proof.
  assert (Hsame : same_but_totaltime (queryDesc s) (queryDesc s))
    by (repeat split).
  assert (Hnil : exists extra : list LogEntry,
                   server_log s = server_log s ++ extra /\
                   (List.length extra <= 1)%nat)
    by (exists []; rewrite app_nil_r; split; [reflexivity | cbn; lia]).
  destruct (due_or_not guc s) as [(t & Htot & Hgate) | Hnot];
    [| rewrite (explain_report_not_due eng guc s Hnot); repeat split;
       try assumption; apply Hsame].
  rewrite (explain_report_due eng guc s t Htot Hgate). cbv zeta.
  destruct (InstrEndLoop eng t) as [t'| e |];
    [| repeat split; try assumption; try discriminate; apply Hsame ..].
  destruct (explain_render eng guc _ _) as [es| e |];
    [| repeat split; try assumption; discriminate ..].
  destruct (explain_postprocess guc (str es)) as [data| e |];
    [| repeat split; try assumption; discriminate ..].
  repeat split.
  exists [report_entry guc t' data]. split; [reflexivity | cbn; lia].
Qed.



(** ** The calls of the EXPLAIN library *)

Lemma explain_render_without_triggers eng f guc q es :
  analyze es && pg_plan_watch_log_triggers guc = false ->
  explain_render (with_ExplainPrintTriggers f eng) guc q es =
  explain_render eng guc q es.
Proof.
  intros Hoff. unfold explain_render.
  cbn [ExplainBeginOutput ExplainQueryText ExplainQueryParameters
       ExplainPrintPlan ExplainPrintTriggers ExplainPrintJITSummary
       ExplainEndOutput with_ExplainPrintTriggers].
  rewrite !explain_call_bind.
  destruct (ExplainBeginOutput eng es) as [o1| |]; try reflexivity.
  rewrite !explain_call_bind.
  destruct (ExplainQueryText eng _ q) as [o2| |]; try reflexivity.
  rewrite !explain_call_bind.
  destruct (ExplainQueryParameters eng _ (params q) _) as [o3| |]; try reflexivity.
  rewrite !explain_call_bind.
  destruct (ExplainPrintPlan eng _ q) as [o4| |]; try reflexivity.
  cbn [analyze with_output]. rewrite Hoff. reflexivity.
Qed.

(** X8: [ExplainPrintTriggers] is not called unless the descriptor has
    some instrumentation bit, [log_analyze] is on and [log_triggers] is
    on: when one of the three fails, the report block is the same
    function of the state whatever the trigger printer is (even one
    that raises). *)
Theorem triggers_need_instrumentation_and_flags eng f guc s :
  instrument_options (queryDesc s) = 0 \/
  pg_plan_watch_log_analyze guc = false \/
  pg_plan_watch_log_triggers guc = false ->
  explain_report (with_ExplainPrintTriggers f eng) guc s =
  explain_report eng guc s.
Proof.
  intros Hoff.
  destruct (due_or_not guc s) as [(t & Htot & Hgate) | Hnot];
    [| rewrite !explain_report_not_due by exact Hnot; reflexivity].
  rewrite !(explain_report_due _ guc s t Htot Hgate). cbv zeta.
  cbn [InstrEndLoop with_ExplainPrintTriggers].
  destruct (InstrEndLoop eng t) as [t'| e |]; try reflexivity.
  rewrite explain_render_without_triggers; [reflexivity |].
  unfold explain_options. cbn [analyze instrument_options set_totaltime].
  destruct Hoff as [-> | [-> | ->]].
  - reflexivity.
  - rewrite andb_false_r. reflexivity.
  - apply andb_false_r.
Qed.

Lemma triggers_need_instrumentation_and_flags_witness :
  instrument_options (queryDesc (Demo.backend 0 Demo.select_1_done)) = 0 /\
  pg_plan_watch_log_triggers Demo2.watch_analyze = true /\
  explain_report (with_ExplainPrintTriggers Demo2.raising_printer Demo.engine)
    Demo2.watch_analyze (Demo.backend 0 Demo.select_1_done) =
  explain_report Demo.engine Demo2.watch_analyze
    (Demo.backend 0 Demo.select_1_done).
Proof.
  split; [reflexivity |]. split; [reflexivity |].
  apply (triggers_need_instrumentation_and_flags Demo.engine
           Demo2.raising_printer Demo2.watch_analyze
           (Demo.backend 0 Demo.select_1_done)).
  left. reflexivity.
Defined.

(** X9: [ExplainPrintJITSummary] is called in every rendering that
    gets that far, also when [log_analyze] is off: [es->costs] is set by
    [NewExplainState] and never cleared. So, when the four calls before
    it return (and no trigger statistics are printed), a JIT summary
    printer that raises makes the rendering raise that error. *)
Theorem jit_summary_is_always_printed eng f guc q o1 o2 o3 o4 e :
  let es0 := explain_options guc q in
  let eng' := with_ExplainPrintJITSummary f eng in
  ExplainBeginOutput eng es0 = Ok o1 ->
  ExplainQueryText eng (with_output es0 o1) q = Ok o2 ->
  ExplainQueryParameters eng (with_output es0 o2) (params q)
    (pg_plan_watch_log_parameter_max_length guc) = Ok o3 ->
  ExplainPrintPlan eng (with_output es0 o3) q = Ok o4 ->
  analyze es0 && pg_plan_watch_log_triggers guc = false ->
  f (with_output es0 o4) q = Raise e ->
  explain_render eng' guc q es0 = Raise e.
Proof.
  intros es0 eng' Hbegin Htext Hparams Hplan Htriggers Hjit.
  unfold explain_render, eng'.
  cbn [ExplainBeginOutput ExplainQueryText ExplainQueryParameters
       ExplainPrintPlan ExplainPrintTriggers ExplainPrintJITSummary
       ExplainEndOutput with_ExplainPrintJITSummary].
  rewrite explain_call_bind, Hbegin.
  assert (Hsame : forall o o', with_output (with_output es0 o) o' = with_output es0 o')
    by reflexivity.
  rewrite explain_call_bind, Htext, Hsame.
  rewrite explain_call_bind, Hparams, Hsame.
  rewrite explain_call_bind, Hplan, Hsame.
  cbn [analyze with_output]. fold es0. rewrite Htriggers.
  cbn [mbind Res_bind mret Res_ret costs with_output].
  change (costs es0) with true. cbn iota.
  unfold explain_call at 2. rewrite Hjit. reflexivity.
Qed.

Lemma jit_summary_is_always_printed_witness :
  pg_plan_watch_log_analyze Demo.watch_all = false /\
  explain_render (with_ExplainPrintJITSummary Demo2.raising_printer Demo.engine)
    Demo.watch_all Demo.select_1_done
    (explain_options Demo.watch_all Demo.select_1_done) =
  Raise "cache lookup failed"%string.
Proof.
  split; [reflexivity |].
  eapply (jit_summary_is_always_printed Demo.engine Demo2.raising_printer
            Demo.watch_all Demo.select_1_done); reflexivity.
Defined.

(** ** The corrections of the text, further *)

Lemma remove_last_line_break_nil_iff (data : list ascii) :
  remove_last_line_break data = [] <-> data = [] \/ data = [LF].
Proof.
  split.
  - destruct data as [| c body _] using rev_ind; [left; reflexivity |].
    intros Hstrip. right.
    destruct (Ascii.eqb_spec c LF) as [-> | Hne].
    + rewrite remove_last_line_break_snoc in Hstrip. subst body. reflexivity.
    + rewrite remove_last_line_break_other in Hstrip.
      * destruct body; discriminate.
      * rewrite last_snoc. congruence.
  - intros [-> | ->]; reflexivity.
Qed.

Lemma fix_json_nil_iff (text : list ascii) :
  fix_json text = Undefined <-> text = [].
Proof.
  split; [| intros ->; reflexivity].
  destruct text as [| c0 rest]; [reflexivity |].
  destruct rest as [| c rest' _] using rev_ind; [discriminate |].
  rewrite fix_json_two_or_more. discriminate.
Qed.

(** X10: the corrections of the text never raise, and their behaviour
    is undefined in one case only: the format is JSON and the rendered
    text is empty or a single line break, so that no character is left
    for the two stores of lines 390-391. *)
Theorem postprocess_undefined_iff guc data :
  (explain_postprocess guc data = Undefined <->
   pg_plan_watch_log_format guc = EXPLAIN_FORMAT_JSON /\
   (data = [] \/ data = [LF])) /\
  (forall e, explain_postprocess guc data <> Raise e).
Proof.
  unfold explain_postprocess. split.
  - rewrite <- remove_last_line_break_nil_iff.
    destruct (pg_plan_watch_log_format guc);
      try (split; [discriminate | intros [Hf _]; discriminate]).
    rewrite fix_json_nil_iff. split; [intros H; split; [reflexivity | exact H] |].
    intros [_ H]. exact H.
  - intros e.
    destruct (pg_plan_watch_log_format guc); try discriminate.
    destruct (remove_last_line_break data) as [| c0 rest]; [discriminate |].
    destruct rest as [| c rest' _] using rev_ind; [discriminate |].
    rewrite fix_json_two_or_more. discriminate.
Qed.

(** X11: the JSON correction keeps the length of the text and is
    idempotent: applied to a text it has produced, it returns that
    text. *)
Theorem fix_json_keeps_length_and_is_idempotent text fixed :
  fix_json text = Ok fixed ->
  len fixed = len text /\ fix_json fixed = Ok fixed.
Proof.
  destruct text as [| c0 rest]; [discriminate |].
  destruct rest as [| c rest' _] using rev_ind.
  - intros [= <-]. split; reflexivity.
  - rewrite fix_json_two_or_more. intros [= <-]. split.
    + unfold len. cbn [List.length]. rewrite !length_app. reflexivity.
    + apply fix_json_two_or_more.
Qed.

Lemma fix_json_keeps_length_and_is_idempotent_witness :
  fix_json (list_ascii_of_string "[1]") = Ok (list_ascii_of_string "{1}") /\
  fix_json (list_ascii_of_string "{1}") = Ok (list_ascii_of_string "{1}").
Proof.
  split; [reflexivity |].
  apply (fix_json_keeps_length_and_is_idempotent
           (list_ascii_of_string "[1]") (list_ascii_of_string "{1}")).
  reflexivity.
Defined.

(** ** The threshold *)

Lemma enabled_threshold guc d level :
  0 <= d ->
  pg_plan_watch_enabled (with_min_duration d guc) level =
  pg_plan_watch_enabled (with_min_duration 0 guc) level.
Proof.
  intros Hd. unfold pg_plan_watch_enabled. cbn.
  destruct (Z.leb_spec 0 d); [reflexivity | lia].
Qed.

Lemma request_instrumentation_threshold guc d eflags s :
  0 <= d ->
  request_instrumentation (with_min_duration d guc) eflags s =
  request_instrumentation (with_min_duration 0 guc) eflags s.
Proof.
  intros Hd. unfold request_instrumentation.
  rewrite !bind_get, (enabled_threshold guc d) by exact Hd. reflexivity.
Qed.

Lemma track_total_time_threshold eng guc d s :
  0 <= d ->
  track_total_time eng (with_min_duration d guc) s =
  track_total_time eng (with_min_duration 0 guc) s.
Proof.
  intros Hd. unfold track_total_time.
  rewrite !bind_get, (enabled_threshold guc d) by exact Hd. reflexivity.
Qed.

(** X12: [log_min_duration] is an on/off switch: for every value that is
    not negative, the start-phase and the end-phase wrappers are the
    functions of the state they are for the value 0. *)
Theorem threshold_is_a_switch eng prev guc d eflags s :
  0 <= d ->
  explain_ExecutorStart eng prev (with_min_duration d guc) eflags s =
    explain_ExecutorStart eng prev (with_min_duration 0 guc) eflags s /\
  explain_ExecutorEnd eng prev (with_min_duration d guc) s =
    explain_ExecutorEnd eng prev (with_min_duration 0 guc) s.
Proof.
  intros Hd. split.
  - unfold explain_ExecutorStart.
    rewrite !(bind_run (request_instrumentation _ eflags)).
    rewrite (request_instrumentation_threshold guc d) by exact Hd.
    destruct (request_instrumentation (with_min_duration 0 guc) eflags s)
      as [[[]| |] s1]; try reflexivity.
    rewrite !bind_run.
    destruct (call_prev_ExecutorStart eng prev eflags s1) as [[[|]| |] s2];
      try reflexivity.
    cbn [negb]. rewrite !bind_run.
    rewrite (track_total_time_threshold eng guc d) by exact Hd. reflexivity.
  - unfold explain_ExecutorEnd. rewrite !bind_run.
    rewrite (threshold_value_is_ignored eng guc d) by exact Hd. reflexivity.
Qed.

Lemma threshold_is_a_switch_witness :
  0 <= 1000 /\
  explain_ExecutorEnd Demo.engine Demo.observer
    (with_min_duration 1000 default_GUC) (Demo.backend 0 Demo.select_1_done) =
  explain_ExecutorEnd Demo.engine Demo.observer
    (with_min_duration 0 default_GUC) (Demo.backend 0 Demo.select_1_done).
Proof.
  split; [lia |].
  apply (threshold_is_a_switch Demo.engine Demo.observer default_GUC 1000 0
           (Demo.backend 0 Demo.select_1_done)).
  lia.
Defined.

(** ** Statements nested in a run phase *)

Lemma entered_level_not_top (n : Z) :
  0 <= n -> is_int n -> wrap_int (n + 1) <> 0.
Proof.
  intros Hpos Hint. destruct (Z.eq_dec n INT_MAX) as [-> | Hne].
  - discriminate.
  - rewrite wrap_int_small by (unfold is_int, INT_MIN, INT_MAX in *; lia). lia.
Qed.

(** X13: a statement that ends while another statement is in its run
    phase is not reported when [log_nested_statements] is off: inside
    the bracket of the run-phase wrapper the nesting level is not 0, so
    the end-phase wrapper called there, by a previous run handler or by
    the standard one, is the previous end handler alone. *)
Theorem nested_end_in_run_is_silent eng prev inner guc direction count s :
  pg_plan_watch_log_nested_statements guc = false ->
  0 <= nesting_level s ->
  is_int (nesting_level s) ->
  explain_ExecutorRun eng
    (with_prev_ExecutorRun (fun _ _ => explain_ExecutorEnd eng inner guc) prev)
    direction count s =
  explain_ExecutorRun eng
    (with_prev_ExecutorRun (fun _ _ => call_prev_ExecutorEnd eng inner) prev)
    direction count s.
Proof.
  intros Hflag Hpos Hint. unfold explain_ExecutorRun.
  rewrite !bind_run, incr_nesting_level_run.
  unfold PG_TRY_FINALLY, call_prev_ExecutorRun.
  cbn [prev_ExecutorRun with_prev_ExecutorRun].
  rewrite explain_ExecutorEnd_closed; [reflexivity |].
  apply nested_not_enabled; [exact Hflag |].
  cbn [nesting_level set_nesting_level].
  apply entered_level_not_top; assumption.
Qed.

Lemma nested_end_in_run_is_silent_witness :
  explain_ExecutorRun Demo.engine
    (with_prev_ExecutorRun
       (fun _ _ => explain_ExecutorEnd Demo.engine Demo.no_hooks Demo.watch_all)
       Demo.no_hooks)
    ForwardScanDirection 0 (Demo.backend 0 Demo.select_1_done) =
    (Ok tt, Demo.backend 0 Demo.select_1_done) /\
  server_log
    (snd (explain_ExecutorRun Demo.engine
            (with_prev_ExecutorRun
               (fun _ _ =>
                  explain_ExecutorEnd Demo.engine Demo.no_hooks
                    (with_nested_statements true Demo.watch_all))
               Demo.no_hooks)
            ForwardScanDirection 0 (Demo.backend 0 Demo.select_1_done))) =
    [report_entry Demo.watch_all {| total := Demo.seconds_000123 |}
       (list_ascii_of_string
          (String.append "Query Text: SELECT 1"
             (String LF "Result  (cost=0.00..0.01 rows=1 width=4)")))].
Proof.
  split; [| reflexivity].
  rewrite (nested_end_in_run_is_silent Demo.engine Demo.no_hooks Demo.no_hooks
             Demo.watch_all ForwardScanDirection 0
             (Demo.backend 0 Demo.select_1_done)).
  - reflexivity.
  - reflexivity.
  - simpl. lia.
  - unfold is_int, INT_MIN, INT_MAX. simpl. lia.
Defined.

(** ** Module load *)

Lemma explain_ExecutorStart_closed eng prev guc eflags s :
  (forall s', pg_plan_watch_enabled guc (nesting_level s') = false) ->
  explain_ExecutorStart eng prev guc eflags s =
  call_prev_ExecutorStart eng prev eflags s.
Proof.
  intros Hclosed.
  rewrite explain_ExecutorStart_after_request
    by (apply request_instrumentation_closed, Hclosed).
  rewrite bind_run.
  destruct (call_prev_ExecutorStart eng prev eflags s) as [[[|]| |] s1];
    try reflexivity.
  cbn [negb]. rewrite bind_run, track_total_time_closed by apply Hclosed.
  reflexivity.
Qed.

(** X14: loading the module keeps the chain and changes nothing while
    watching is off: with [log_min_duration] negative (its boot value
    is), the start and the end of a statement go, through the hooks
    [_PG_init] installs, exactly as they went through the hook
    variables before the load (the previous hook when there was one,
    the standard function otherwise). *)
Theorem load_is_transparent_while_disabled eng srv guc eflags s :
  pg_plan_watch_log_min_duration guc < 0 ->
  ExecutorStart eng (_PG_init eng srv guc) eflags s =
    ExecutorStart eng srv eflags s /\
  ExecutorEnd eng (_PG_init eng srv guc) s = ExecutorEnd eng srv s.
Proof.
  intros Hneg.
  assert (Hclosed : forall s', pg_plan_watch_enabled guc (nesting_level s') = false)
    by (intros s'; apply disabled_sentinel; exact Hneg).
  unfold ExecutorStart, ExecutorEnd.
  cbn [ExecutorStart_hook ExecutorEnd_hook _PG_init]. split.
  - rewrite explain_ExecutorStart_closed by exact Hclosed. reflexivity.
  - rewrite explain_ExecutorEnd_closed by apply Hclosed. reflexivity.
Qed.

Lemma load_is_transparent_while_disabled_witness :
  pg_plan_watch_log_min_duration default_GUC < 0 /\
  ExecutorStart Demo.engine
    (_PG_init Demo.engine Demo2.observed_server default_GUC) 0
    (Demo.backend 0 Demo.select_1) =
    ExecutorStart Demo.engine Demo2.observed_server 0
      (Demo.backend 0 Demo.select_1) /\
  ExecutorEnd Demo.engine
    (_PG_init Demo.engine Demo2.plain_server default_GUC)
    (Demo.backend 0 Demo.select_1_done) =
    standard_ExecutorEnd Demo.engine (Demo.backend 0 Demo.select_1_done).
Proof.
  split; [simpl; lia |]. split.
  - apply (load_is_transparent_while_disabled Demo.engine Demo2.observed_server
             default_GUC 0 (Demo.backend 0 Demo.select_1)).
    simpl. lia.
  - apply (load_is_transparent_while_disabled Demo.engine Demo2.plain_server
             default_GUC 0 (Demo.backend 0 Demo.select_1_done)).
    simpl. lia.
Defined.

(** X15: after the load, the run and the finish of a statement go
    through the handler that was in the hook variable before (or the
    standard function), one nesting level deeper: when that handler
    returns or raises, its outcome is passed on and the state is the
    one it left, with [nesting_level] decremented once. This holds for
    every value of the GUC variables. *)
Theorem load_keeps_run_and_finish_chain eng srv guc direction count s :
  let entered := set_nesting_level (wrap_int (nesting_level s + 1)) s in
  let leave := fun s1 => set_nesting_level (wrap_int (nesting_level s1 - 1)) s1 in
  (forall r s1,
     ExecutorRun eng srv direction count entered = (r, s1) ->
     r <> Undefined ->
     ExecutorRun eng (_PG_init eng srv guc) direction count s = (r, leave s1)) /\
  (forall r s1,
     ExecutorFinish eng srv entered = (r, s1) ->
     r <> Undefined ->
     ExecutorFinish eng (_PG_init eng srv guc) s = (r, leave s1)).
Proof.
  intros entered leave.
  unfold ExecutorRun, ExecutorFinish.
  cbn [ExecutorRun_hook ExecutorFinish_hook _PG_init].
  unfold explain_ExecutorRun, explain_ExecutorFinish,
    call_prev_ExecutorRun, call_prev_ExecutorFinish.
  cbn [prev_ExecutorRun prev_ExecutorFinish saved_hooks].
  split; intros r s1 Hold Hdefined;
    rewrite bind_run, incr_nesting_level_run; fold entered;
    unfold PG_TRY_FINALLY; rewrite Hold;
    destruct r as [[]| e |]; [reflexivity | reflexivity | contradiction
                              | reflexivity | reflexivity | contradiction].
Qed.

Lemma load_keeps_run_and_finish_chain_witness :
  ExecutorRun Demo.engine (_PG_init Demo.engine Demo2.observed_server default_GUC)
    ForwardScanDirection 0 (Demo.backend 0 Demo.select_1) =
  (Raise "canceling statement due to user request"%string,
   set_server_log
     [{| elevel := LOG; message := "observer: run"; hide_stmt := false |}]
     (Demo.backend 0 Demo.select_1)).
Proof.
  apply (proj1 (load_keeps_run_and_finish_chain Demo.engine Demo2.observed_server
                  default_GUC ForwardScanDirection 0
                  (Demo.backend 0 Demo.select_1))
           (Raise "canceling statement due to user request"%string)
           (set_server_log
              [{| elevel := LOG; message := "observer: run"; hide_stmt := false |}]
              (Demo.backend 1 Demo.select_1))).
  - reflexivity.
  - discriminate.
Defined.

(** X16: of the values the definition of [log_min_duration] in
    [_PG_init] admits (from its minimum to its maximum), all fit an
    [int] and -1 alone closes the gate: a value is admitted and leaves
    a top-level statement unwatched exactly when it is -1. *)
Theorem minus_one_is_the_only_disabling_value
    short_desc long_desc boot lo hi flags guc v :
  In (CustomIntVariable "pg_plan_watch.log_min_duration" short_desc long_desc
        boot lo hi flags) pg_plan_watch_variables ->
  lo <= v <= hi ->
  is_int v /\
  is_int boot /\ lo <= boot <= hi /\
  (pg_plan_watch_enabled (with_min_duration v guc) 0 = false <-> v = -1).
Proof.
  intros Hin Hrange.
  assert (Hdef : boot = -1 /\ lo = -1 /\ hi = INT_MAX).
  { cbn in Hin.
    repeat (destruct Hin as [Hin | Hin];
            [try discriminate; injection Hin as <- <- <- <- <- <-;
             repeat split |]).
    contradiction. }
  destruct Hdef as (-> & -> & ->).
  unfold is_int, INT_MIN, INT_MAX in *.
  split; [lia |]. split; [lia |]. split; [lia |].
  unfold pg_plan_watch_enabled. cbn.
  destruct (Z.leb_spec 0 v); split; intros Hv; try discriminate; try reflexivity; lia.
Qed.

Lemma minus_one_is_the_only_disabling_value_witness :
  is_int 250 /\
  (pg_plan_watch_enabled (with_min_duration 250 default_GUC) 0 = false <-> 250 = -1).
Proof.
  destruct (minus_one_is_the_only_disabling_value
              "Sets the minimum execution time above which plans will be logged."
              (Some "-1 disables logging plans. 0 means log all plans."%string)
              (-1) (-1) INT_MAX (Some GUC_UNIT_MS) default_GUC 250)
    as (Hint & _ & _ & Hiff).
  - left. reflexivity.
  - unfold INT_MAX. lia.
  - split; [exact Hint | exact Hiff].
Defined.
